(** * Headline pipeline: fetchNews.py and analyzeSentiment.py

    A shallow embedding of the two scripts under [backend/scripts]:
    the Fetcher ([get_headlines_by_category] and its entry point) and the
    Analyzer ([analyzeSentiment] and its entry point).

    Python values are an inductive type, dictionaries are finite maps with
    string keys, exceptions are values of an error type and every effect of
    the scripts (console, files, directories, HTTP requests) is a field of
    an explicit [world] threaded through a state-and-exception monad. *)

From Stdlib Require Import Floats.PrimFloat ZArith.
From stdpp Require Import gmap strings list fin_maps pretty.
Local Open Scope string_scope.

(** ** Python values

    The values that [json.load] and [response.json()] can produce, which are
    also the values the scripts build.  A [dict] decoded from JSON has string
    keys only; equality of Python dicts ignores insertion order, as equality
    of [gmap] does.  The records of a decoded list are distinct objects, so
    the in-place update of a record by the Analyzer is an update of that
    element alone and values stand for the objects. *)

#[warnings="-register-all"]
Inductive pyval : Type :=
  | PNone
  | PBool (b : bool)
  | PInt (z : Z)
  | PFloat (f : float)
  | PStr (s : string)
  | PList (l : list pyval)
  | PDict (d : gmap string pyval).

(** The line feed, for the literals that contain [\n]. *)
Definition nl : string := String (Ascii.ascii_of_nat 10) EmptyString.

(** ** Exceptions *)

Inductive exn_class : Type :=
  | FileNotFoundError
  | NotADirectoryError
  | IsADirectoryError
  | PermissionError
  | JSONDecodeError            (* json.JSONDecodeError, a ValueError *)
  | NameError
  | AttributeError
  | TypeError
  | KeyError
  | IndexError
  | ValueError
  | UnicodeEncodeError
  | OSError
  | Requests_RequestException  (* requests.exceptions.RequestException *)
  | Requests_HTTPError
  | Requests_ConnectionError
  | Requests_Timeout
  | Requests_TooManyRedirects
  | Requests_JSONDecodeError.  (* requests.exceptions.JSONDecodeError *)

Record exn : Type := mk_exn { exn_cls : exn_class; exn_msg : string }.

(** [isinstance(e, requests.exceptions.RequestException)]: the classes of
    the [requests] hierarchy. *)
Definition is_RequestException (e : exn) : bool :=
  match exn_cls e with
  | Requests_RequestException | Requests_HTTPError | Requests_ConnectionError
  | Requests_Timeout | Requests_TooManyRedirects | Requests_JSONDecodeError => true
  | _ => false
  end.

(** [isinstance(e, FileNotFoundError)]. *)
Definition is_FileNotFoundError (e : exn) : bool :=
  match exn_cls e with
  | FileNotFoundError => true
  | _ => false
  end.

(** The result of evaluating a Python expression: a value or a raised
    exception. *)
Inductive outcome (A : Type) : Type :=
  | Ret (a : A)
  | Raise (e : exn).
Arguments Ret {A} a.
Arguments Raise {A} e.

#[global] Instance outcome_ret : MRet outcome := @Ret.
#[global] Instance outcome_bind : MBind outcome := λ A B f o,
  match o with
  | Ret a => f a
  | Raise e => Raise e
  end.

Definition throw {A : Type} (c : exn_class) (msg : string) : outcome A :=
  Raise (mk_exn c msg).

(** ** Builtin operations of Python that the scripts use *)

Module Py.

(** The name of a value's type, as error messages print it. *)
Definition type_name (v : pyval) : string :=
  match v with
  | PNone => "NoneType"
  | PBool _ => "bool"
  | PInt _ => "int"
  | PFloat _ => "float"
  | PStr _ => "str"
  | PList _ => "list"
  | PDict _ => "dict"
  end.

(** Truth value testing ([if x], [not x]): [None], [False], zero, and the
    empty string, list and dict are false. *)
Definition truthy (v : pyval) : bool :=
  match v with
  | PNone => false
  | PBool b => b
  | PInt z => negb (z =? 0)%Z
  | PFloat f => negb (PrimFloat.eqb f 0%float)
  | PStr s => negb (String.eqb s "")
  | PList l => negb (length l =? 0)%nat
  | PDict d => negb (size d =? 0)%nat
  end.

(** [len(v)]. *)
Definition len (v : pyval) : outcome nat :=
  match v with
  | PStr s => Ret (String.length s)
  | PList l => Ret (length l)
  | PDict d => Ret (size d)
  | _ => throw TypeError ("object of type '" +:+ type_name v +:+ "' has no len()")
  end.

(** The characters of a string, each a string of length one. *)
Fixpoint chars (s : string) : list pyval :=
  match s with
  | EmptyString => []
  | String c s' => PStr (String c EmptyString) :: chars s'
  end.

(** The elements [for x in v] visits: the items of a list, the keys of a
    dict, the characters of a string.  A [gmap] does not keep the order in
    which the keys were inserted; the scripts never iterate over a dict
    past its first key. *)
Definition iter (v : pyval) : outcome (list pyval) :=
  match v with
  | PList l => Ret l
  | PDict d => Ret (PStr <$> (map_to_list d).*1)
  | PStr s => Ret (chars s)
  | _ => throw TypeError ("'" +:+ type_name v +:+ "' object is not iterable")
  end.

(** [v.get(key, default)]: only a dict has the method. *)
Definition get (v : pyval) (key : string) (dflt : pyval) : outcome pyval :=
  match v with
  | PDict d => Ret (default dflt (d !! key))
  | _ => throw AttributeError
           ("'" +:+ type_name v +:+ "' object has no attribute 'get'")
  end.

(** The item at an index of a sequence: negative indices count from the
    end. *)
Definition index {A : Type} (l : list A) (i : Z) : option A :=
  let n := Z.of_nat (length l) in
  if bool_decide (0 ≤ i < n)%Z then l !! Z.to_nat i
  else if bool_decide (- n ≤ i < 0)%Z then l !! Z.to_nat (n + i)
  else None.

(** The subscripts that the scripts write: an integer literal, as in
    [result[0]], or a string literal, as in [article['title']]. *)
Inductive subscript : Type :=
  | Index (i : Z)
  | Key (key : string).

(** The subscript [v[k]].  The text of a [KeyError] is the [repr] of the
    key: the digits of an integer, and for the keys of the scripts, which
    are plain words, the word between single quotes. *)
Definition getitem (v : pyval) (k : subscript) : outcome pyval :=
  match v with
  | PList l =>
      match k with
      | Index i =>
          match index l i with
          | Some x => Ret x
          | None => throw IndexError "list index out of range"
          end
      | Key _ => throw TypeError "list indices must be integers or slices, not str"
      end
  | PDict d =>
      match k with
      | Key key =>
          match d !! key with
          | Some x => Ret x
          | None => throw KeyError ("'" +:+ key +:+ "'")
          end
      | Index i => throw KeyError (pretty i)
      end
  | PStr s =>
      match k with
      | Index i =>
          match index (chars s) i with
          | Some x => Ret x
          | None => throw IndexError "string index out of range"
          end
      | Key _ => throw TypeError "string indices must be integers, not 'str'"
      end
  | _ => throw TypeError ("'" +:+ type_name v +:+ "' object is not subscriptable")
  end.

(** The assignment [v[key] = x] with a string key; the result is the
    updated object. *)
Definition setitem (v : pyval) (key : string) (x : pyval) : outcome pyval :=
  match v with
  | PDict d => Ret (PDict (<[key := x]> d))
  | PList _ => throw TypeError "list indices must be integers or slices, not str"
  | _ => throw TypeError
           ("'" +:+ type_name v +:+ "' object does not support item assignment")
  end.

(** The slice [v[:n]]. *)
Definition slice_to (n : nat) (v : pyval) : outcome pyval :=
  match v with
  | PList l => Ret (PList (take n l))
  | PStr s => Ret (PStr (String.substring 0 n s))
  | PDict _ => throw TypeError "unhashable type: 'slice'"
  | _ => throw TypeError ("'" +:+ type_name v +:+ "' object is not subscriptable")
  end.

End Py.

(** ** The world the scripts act on *)

(** A GET request: the URL and the query parameters, in the order of the
    [params] dict. *)
Record http_request : Type := mk_request {
  req_url : string;
  req_params : list (string * pyval)
}.

(** What the scripts use of a [requests.Response]: the status line, the URL
    and the result of [response.json()], which is the decoded body or the
    exception the decoder raises. *)
Record response : Type := mk_response {
  status_code : Z;
  reason : string;
  url : string;
  json_result : outcome pyval
}.

Record world : Type := mk_world {
  files : gmap string string;     (* path to contents *)
  dirs : gset string;             (* directories created *)
  console : list string;          (* one entry for each call of print *)
  sent : list http_request        (* the HTTP requests made, oldest first *)
}.

(** A computation of the scripts: it reads and changes the world, and ends
    with a value or with an exception.  The effects made before an exception
    stay. *)
Definition M (A : Type) : Type := world → outcome A * world.

#[global] Instance M_ret : MRet M := λ A a w, (Ret a, w).
#[global] Instance M_bind : MBind M := λ A B f m w,
  match m w with
  | (Ret a, w') => f a w'
  | (Raise e, w') => (Raise e, w')
  end.

Definition lift {A : Type} (o : outcome A) : M A := λ w, (o, w).

(** [try: body except C as e: handler e], where [catches e] is
    [isinstance(e, C)]. *)
Definition try_except {A : Type} (body : M A) (catches : exn → bool)
    (handler : exn → M A) : M A := λ w,
  match body w with
  | (Ret a, w') => (Ret a, w')
  | (Raise e, w') => if catches e then handler e w' else (Raise e, w')
  end.

Definition print (line : string) : M unit := λ w,
  (Ret (), mk_world (files w) (dirs w) (console w ++ [line]) (sent w)).

(** [open(path, 'r', encoding='utf-8')] and reading the whole file.  When
    the path holds no file that can be read, the call raises the exception
    that [open_error] gives for the state of the file system and the path:
    [FileNotFoundError] when nothing is there, and otherwise what the
    operating system reports ([NotADirectoryError], [IsADirectoryError],
    [PermissionError], [ValueError] for a path with a null character, ...). *)
Definition open_read (open_error : gmap string string → gset string → string → exn)
    (path : string) : M string := λ w,
  match files w !! path with
  | Some contents => (Ret contents, w)
  | None => (Raise (open_error (files w) (dirs w) path), w)
  end.

(** [open(path, 'w', encoding='utf-8')] creates or truncates the file; the
    text written then replaces the empty contents. *)
Definition write_file (path contents : string) : M unit := λ w,
  (Ret (), mk_world (<[path := contents]> (files w)) (dirs w) (console w) (sent w)).

(** [os.makedirs(path, exist_ok=True)]. *)
Definition os_makedirs (path : string) : M unit := λ w,
  (Ret (), mk_world (files w) ({[path]} ∪ dirs w) (console w) (sent w)).

(** ** [os.path.join] for POSIX paths *)

Definition starts_with_slash (path : string) : bool :=
  String.prefix "/" path.

Definition ends_with_slash (path : string) : bool :=
  starts_with_slash (String.rev path).

Fixpoint os_path_join (a : string) (p : list string) : string :=
  match p with
  | [] => a
  | b :: p' =>
      os_path_join
        (if starts_with_slash b then b
         else if (String.eqb a "" || ends_with_slash a)%bool then a +:+ b
         else a +:+ "/" +:+ b)
        p'
  end.

(** ** The scripts *)

Section Pipeline.

(** *** External collaborators

    The libraries and the surroundings of the scripts, which the
    repository does not contain, are parameters of the model. *)

(** [json.load] on the text of a file: the decoded value, or the
    exception of the decoder. *)
Variable json_loads : string → outcome pyval.
(** [json.dump(v, f, indent=4, ensure_ascii=False)]: the text written. *)
Variable json_dumps : pyval → outcome string.
(** The encoder writes piece by piece: the text that has reached the file
    when [json.dump] raises. *)
Variable json_written : pyval → string.
(** What [requests.get] gives for a request: a response, or the exception
    of the transport (connection error, timeout, ...).  The call sets no
    timeout; a request that is never answered is outside the model. *)
Variable network : http_request → outcome response.
(** The exception of [open] for a path that holds no readable file, given
    the files and the directories there are. *)
Variable open_error : gmap string string → gset string → string → exn.
(** [transformers.pipeline(task)]: the classifier it loads, a function
    from a text to a result structure that may raise, or the exception of
    the loading (no model in the cache and no connection, no memory, ...). *)
Variable pipeline : string → outcome (pyval → outcome pyval).
(** [str(v)], as a replacement field of an f-string formats [v]. *)
Variable py_str : pyval → string.
(** [format(v, '.2f')]. *)
Variable format_2f : pyval → outcome string.
(** [os.path.dirname(__file__)] of the running script. *)
Variable script_dir : string.
(** The process environment once [load_dotenv()] has run. *)
Variable environ : gmap string string.

(** *** fetchNews.py *)

(** [os.getenv(name)]. *)
Definition os_getenv (name : string) : pyval :=
  match environ !! name with
  | Some value => PStr value
  | None => PNone
  end.

Definition API_KEY : pyval := os_getenv "NEWS_API_KEY".
Definition BASE_URL : string := "https://newsapi.org/v2/top-headlines".

(** [requests.get(url, params=params)]: the request goes out and the
    network answers. *)
Definition requests_get (url : string) (params : list (string * pyval)) : M response :=
  λ w,
    let request := mk_request url params in
    (network request, mk_world (files w) (dirs w) (console w) (sent w ++ [request])).

(** [response.raise_for_status()] of the [requests] library: it builds
    a message for a status from 400 to 599 and raises an [HTTPError] when
    there is one; for every other status it does nothing. *)
Definition http_error_msg (r : response) : string :=
  if bool_decide (400 ≤ status_code r < 500)%Z then
    pretty (status_code r) +:+ " Client Error: " +:+ reason r
      +:+ " for url: " +:+ url r
  else if bool_decide (500 ≤ status_code r < 600)%Z then
    pretty (status_code r) +:+ " Server Error: " +:+ reason r
      +:+ " for url: " +:+ url r
  else "".

Definition raise_for_status (r : response) : outcome unit :=
  if negb (String.eqb (http_error_msg r) "") then
    throw Requests_HTTPError (http_error_msg r)
  else Ret ().

(** The [params] dict of the request. *)
Definition fetch_params (category language : string) : list (string * pyval) :=
  [("category", PStr category);
   ("language", PStr language);
   ("apiKey", API_KEY);
   ("pageSize", PInt 100)].

Definition get_headlines_by_category (category language : string) : M pyval :=
  if negb (Py.truthy API_KEY) then
    print "Error: NEWS_API_KEY not found. Please set it in your .env file." ;;
    mret PNone
  else
    let params := fetch_params category language in
    print ("Fetching '" +:+ category +:+ "' headlines...") ;;
    try_except
      (response ← requests_get BASE_URL params;
       lift (raise_for_status response) ;;
       data ← lift (json_result response);
       lift (Py.get data "articles" (PList [])))
      is_RequestException
      (λ e, print ("An error occurred: " +:+ exn_msg e) ;; mret PNone).

(** [with open(path, 'w', encoding='utf-8') as f:
       json.dump(v, f, indent=4, ensure_ascii=False)].
    Opening truncates the file before the encoder runs; when the encoder
    raises, what it had written stays in the file. *)
Definition dump_to_file (path : string) (v : pyval) : M unit :=
  write_file path "" ;;
  match json_dumps v with
  | Ret text => write_file path text
  | Raise e => write_file path (json_written v) ;; lift (Raise e)
  end.

(** The entry point of fetchNews.py. *)
Definition fetchNews_main : M unit :=
  articles ← get_headlines_by_category "general" "en";
  (if Py.truthy articles then
     let data_dir := os_path_join script_dir [".."; "data"] in
     os_makedirs data_dir ;;
     let file_path := os_path_join data_dir ["global_headlines.json"] in
     dump_to_file file_path articles ;;
     n ← lift (Py.len articles);
     print ("Successfully saved " +:+ pretty n +:+ " articles to " +:+ file_path)
   else
     print "Could not fetch or save articles.") ;;
  print (nl +:+ "Fetching complete!").

(** *** analyzeSentiment.py *)

(** The body of [for article in articles], with [analyzed_articles] as
    the accumulator. *)
Fixpoint analyze_loop (sentiment_pipeline : pyval → outcome pyval)
    (articles analyzed_articles : list pyval) : outcome (list pyval) :=
  match articles with
  | [] => Ret analyzed_articles
  | article :: rest =>
      title ← Py.get article "title" PNone;
      if negb (Py.truthy title) then
        analyze_loop sentiment_pipeline rest analyzed_articles
      else
        result ← sentiment_pipeline title;
        first ← Py.getitem result (Py.Index 0);
        sentiment ← Py.getitem first (Py.Key "label");
        first' ← Py.getitem result (Py.Index 0);
        sentiment_score ← Py.getitem first' (Py.Key "score");
        article ← Py.setitem article "sentiment" sentiment;
        article ← Py.setitem article "sentiment_score" sentiment_score;
        analyze_loop sentiment_pipeline rest (analyzed_articles ++ [article])
  end.

Definition analyzeSentiment (file_path : string) : M pyval :=
  print "Loading the sentiment analysis model" ;;
  sentiment_pipeline ← lift (pipeline "sentiment-analysis");
  print "Model loaded successfully" ;;
  loaded ← try_except
    (contents ← open_read open_error file_path;
     articles ← lift (json_loads contents);
     mret (Some articles))
    is_FileNotFoundError
    (λ _, print ("Error: The file " +:+ file_path +:+ " was not found.") ;;
          mret None);
  match loaded with
  | None => mret PNone
  | Some articles =>
      n ← lift (Py.len articles);
      print ("Analyzing sentiment for " +:+ pretty n +:+ " articles...") ;;
      items ← lift (Py.iter articles);
      analyzed_articles ← lift (analyze_loop sentiment_pipeline items []);
      print "Analysis complete." ;;
      mret (PList analyzed_articles)
  end.

(** The objects that the top-level statements of analyzeSentiment.py bind
    in the module's namespace. *)
Inductive pyobj : Type :=
  | PyModule (name : string)
  | PyLibraryFunction (name : string)
  | PyFunction (f : string → M pyval).

(** [import os], [import json], [from transformers import pipeline] and
    [def analyzeSentiment]. *)
Definition analyzer_globals : gmap string pyobj :=
  <["analyzeSentiment" := PyFunction analyzeSentiment]>
    (<["pipeline" := PyLibraryFunction "transformers.pipeline"]>
       (<["json" := PyModule "json"]>
          (<["os" := PyModule "os"]> ∅))).

(** Evaluating a global name. *)
Definition load_name (name : string) : outcome pyobj :=
  match analyzer_globals !! name with
  | Some o => Ret o
  | None => throw NameError ("name '" +:+ name +:+ "' is not defined")
  end.

(** Calling an object on one string argument.  Only the module's own
    function is called through this model. *)
Definition call (o : pyobj) (arg : string) : M pyval :=
  match o with
  | PyFunction f => f arg
  | PyModule _ => lift (throw TypeError "'module' object is not callable")
  | PyLibraryFunction name =>
      lift (throw ValueError ("call of " +:+ name +:+ " on a file path"))
  end.

(** The two prints for one sample article. *)
Definition print_sample (article : pyval) : M unit :=
  title ← lift (Py.getitem article (Py.Key "title"));
  print ("Headline: " +:+ py_str title) ;;
  sentiment ← lift (Py.getitem article (Py.Key "sentiment"));
  score ← lift (Py.getitem article (Py.Key "sentiment_score"));
  score_text ← lift (format_2f score);
  print ("Sentiment: " +:+ py_str sentiment +:+ " (Score: " +:+ score_text
           +:+ ")" +:+ nl).

Fixpoint for_each (items : list pyval) (body : pyval → M unit) : M unit :=
  match items with
  | [] => mret ()
  | x :: rest => body x ;; for_each rest body
  end.

(** The entry point after the analysis has run: [if analyzed_data: ...]. *)
Definition save_and_report (analyzed_data : pyval) : M unit :=
  if Py.truthy analyzed_data then
    let output_file :=
      os_path_join script_dir [".."; "data"; "analyzed_headlines.json"] in
    dump_to_file output_file analyzed_data ;;
    print ("Successfully saved analyzed data to " +:+ output_file) ;;
    print (nl +:+ "--- Sample of Analyzed Headlines ---") ;;
    sample ← lift (Py.slice_to 5 analyzed_data);
    items ← lift (Py.iter sample);
    for_each items print_sample
  else mret ().

(** The entry point of analyzeSentiment.py. *)
Definition analyzeSentiment_main : M unit :=
  let input_file :=
    os_path_join script_dir [".."; "data"; "global_headlines.json"] in
  analyze_headlines ← lift (load_name "analyze_headlines");
  analyzed_data ← call analyze_headlines input_file;
  save_and_report analyzed_data.

End Pipeline.

(** The world after one more line on the console. *)
Definition say (line : string) (w : world) : world :=
  mk_world (files w) (dirs w) (console w ++ [line]) (sent w).

(** A score within the closed interval from 0 to 1. *)
Definition in_unit_interval (score : float) : bool :=
  (PrimFloat.leb 0%float score && PrimFloat.leb score 1%float)%bool.

(** A relation between two lists can use what holds of the left one. *)
Lemma Forall2_with_left {A B : Type} (P : A → B → Prop) (Q : A → Prop)
    (R : A → B → Prop) (l : list A) (k : list B) :
  Forall2 P l k → Forall Q l → (∀ a b, P a b → Q a → R a b) → Forall2 R l k.
Proof.
  intros HP. induction HP as [| a b l k Hab HP IH]; intros HQ HR.
  - constructor.
  - apply Forall_cons in HQ as [Ha HQ]. constructor; auto.
Qed.

(** ** Sample inputs

    Concrete collaborators and worlds on which the statements below are
    evaluated. *)

Module Sample.

Definition empty_world : world := mk_world ∅ ∅ [] [].

Definition with_key : gmap string string := {[ "NEWS_API_KEY" := "0123abcd" ]}.
Definition blank_key : gmap string string := {[ "NEWS_API_KEY" := "" ]}.

Definition headline (title : string) : gmap string pyval :=
  <["title" := PStr title]> (<["url" := PStr "https://example.org/a"]> ∅).

(** The three records of the scenario of the specification. *)
Definition scenario : list (gmap string pyval) :=
  [ {[ "title" := PStr "Markets rally on strong earnings" ]};
    {[ "title" := PStr "" ]};
    {[ "source" := PStr "x" ]} ].

Definition three_articles : list pyval :=
  PDict <$> [headline "a"; headline "b"; headline "c"].

Definition body (articles : pyval) : pyval := PDict {[ "articles" := articles ]}.

Definition api_url : string := "https://newsapi.org/v2/top-headlines".

(** A network that answers every request with the given status and body. *)
Definition answers (status : Z) (phrase : string) (data : pyval)
    (_ : http_request) : outcome response :=
  Ret (mk_response status phrase api_url (Ret data)).

(** A network on which every request times out. *)
Definition times_out (_ : http_request) : outcome response :=
  throw Requests_Timeout "HTTPSConnectionPool(host='newsapi.org', port=443): Read timed out.".

(** A classifier that labels every text POSITIVE with score 0.75. *)
Definition positive (_ : pyval) : outcome pyval :=
  Ret (PList [PDict (<["score" := PFloat 0.75%float]>
                       (<["label" := PStr "POSITIVE"]> ∅))]).

Definition load_positive (_ : string) : outcome (pyval → outcome pyval) :=
  Ret positive.

(** A loading that fails: no model in the cache and no connection. *)
Definition load_fails (_ : string) : outcome (pyval → outcome pyval) :=
  throw OSError "We couldn't connect to 'https://huggingface.co' to load this file".

(** The report of a POSIX system for a path that holds no file: a path
    below a regular file is not in a directory, a path that is a directory
    cannot be read, and otherwise there is no such file. *)
Fixpoint below_a_file (files : gmap string string) (prefix rest : string) : bool :=
  match rest with
  | EmptyString => false
  | String c rest' =>
      (String.eqb (String c EmptyString) "/" && bool_decide (is_Some (files !! prefix))
       || below_a_file files (prefix +:+ String c EmptyString) rest')%bool
  end.

Definition posix_open_error (files : gmap string string) (dirs : gset string)
    (path : string) : exn :=
  if below_a_file files "" path then
    mk_exn NotADirectoryError ("[Errno 20] Not a directory: '" +:+ path +:+ "'")
  else if bool_decide (path ∈ dirs) then
    mk_exn IsADirectoryError ("[Errno 21] Is a directory: '" +:+ path +:+ "'")
  else
    mk_exn FileNotFoundError ("[Errno 2] No such file or directory: '" +:+ path +:+ "'").

(** One article more than the page size asked for. *)
Definition many_articles : list pyval := replicate 101 (PDict (headline "a")).

Definition nothing_written (_ : pyval) : string := "".

Definition input_path : string := "data/global_headlines.json".

(** A decoder that knows one text, the one of the scenario. *)
Definition decode_scenario (text : string) : outcome pyval :=
  if String.eqb text "scenario" then Ret (PList (PDict <$> scenario))
  else throw JSONDecodeError "Expecting value: line 1 column 1 (char 0)".

Definition scenario_world : world :=
  mk_world {[ input_path := "scenario" ]} ∅ [] [].

Definition encode_nothing (_ : pyval) : outcome string := Ret "[]".
Definition show_nothing (_ : pyval) : string := "".
Definition format_nothing (_ : pyval) : outcome string := Ret "0.00".

End Sample.

(** ** Properties of the Fetcher *)

Section Fetcher_properties.

Variable json_dumps : pyval → outcome string.
Variable json_written : pyval → string.
Variable network : http_request → outcome response.
Variable script_dir : string.
Variable environ : gmap string string.

(** The request that [get_headlines_by_category] sends. *)
Definition fetch_request (category language : string) : http_request :=
  mk_request BASE_URL (fetch_params environ category language).

(** The world once the request has been announced and sent. *)
Definition after_request (category language : string) (w : world) : world :=
  mk_world (files w) (dirs w)
    (console w ++ ["Fetching '" +:+ category +:+ "' headlines..."])
    (sent w ++ [fetch_request category language]).

(** A failure of the fetch that the [requests] library signals, with the
    exception [e] it raises: the transport raises a [RequestException]
    (a timeout, a connection error, ...), or the response has a status
    from 400 to 599 and [raise_for_status] raises its [HTTPError]. *)
Definition fetch_fails_with (category language : string) (e : exn) : Prop :=
  (network (fetch_request category language) = Raise e
     ∧ is_RequestException e = true)
  ∨ (∃ r, network (fetch_request category language) = Ret r
        ∧ (400 ≤ status_code r < 600)%Z
        ∧ e = mk_exn Requests_HTTPError (http_error_msg r)).

Lemma key_missing_or_blank :
  environ !! "NEWS_API_KEY" = None ∨ environ !! "NEWS_API_KEY" = Some "" →
  Py.truthy (API_KEY environ) = false.
Proof.
  unfold API_KEY, os_getenv. by intros [-> | ->].
Qed.

Lemma append_nonempty (a b : string) : b ≠ "" → String.eqb (a +:+ b) "" = false.
Proof.
  intros Hb. destruct a as [|c a]; simpl.
  - destruct b; [done | reflexivity].
  - reflexivity.
Qed.

Lemma http_error_msg_error (r : response) :
  (400 ≤ status_code r < 600)%Z → String.eqb (http_error_msg r) "" = false.
Proof.
  intros Hs. unfold http_error_msg.
  repeat case_bool_decide; try lia; by apply append_nonempty.
Qed.

Lemma http_error_msg_other (r : response) :
  ¬ (400 ≤ status_code r < 600)%Z → http_error_msg r = "".
Proof.
  intros Hs. unfold http_error_msg.
  repeat case_bool_decide; try lia; reflexivity.
Qed.

Lemma raise_for_status_error (r : response) :
  (400 ≤ status_code r < 600)%Z →
  raise_for_status r = Raise (mk_exn Requests_HTTPError (http_error_msg r)).
Proof.
  intros Hs. unfold raise_for_status.
  by rewrite (http_error_msg_error r Hs).
Qed.

Lemma raise_for_status_other (r : response) :
  ¬ (400 ≤ status_code r < 600)%Z → raise_for_status r = Ret ().
Proof.
  intros Hs. unfold raise_for_status.
  by rewrite (http_error_msg_other r Hs).
Qed.

(** With a key, the function announces the fetch, sends the request and
    goes on with what the network answers. *)
Lemma get_headlines_with_key (category language : string) (w : world) :
  Py.truthy (API_KEY environ) = true →
  get_headlines_by_category network environ category language w =
    match network (fetch_request category language) with
    | Raise e =>
        if is_RequestException e then
          (Ret PNone,
           say ("An error occurred: " +:+ exn_msg e) (after_request category language w))
        else (Raise e, after_request category language w)
    | Ret r =>
        match raise_for_status r ≫= (λ _, json_result r ≫= λ data,
                Py.get data "articles" (PList [])) with
        | Ret v => (Ret v, after_request category language w)
        | Raise e =>
            if is_RequestException e then
              (Ret PNone,
               say ("An error occurred: " +:+ exn_msg e)
                   (after_request category language w))
            else (Raise e, after_request category language w)
        end
    end.
Proof.
  intros Hkey. unfold get_headlines_by_category. rewrite Hkey. simpl.
  unfold mbind, M_bind, try_except, print, requests_get, lift, mret, M_ret. simpl.
  fold (fetch_request category language).
  destruct (network (fetch_request category language)) as [r | e]; simpl.
  - destruct (raise_for_status r) as [[] | e]; simpl.
    + destruct (json_result r) as [data | e]; simpl.
      * destruct (Py.get data "articles" (PList [])) as [v | e]; simpl; [done |].
        by destruct (is_RequestException e).
      * by destruct (is_RequestException e).
    + by destruct (is_RequestException e).
  - by destruct (is_RequestException e).
Qed.

Lemma get_headlines_without_key (category language : string) (w : world) :
  Py.truthy (API_KEY environ) = false →
  get_headlines_by_category network environ category language w =
    (Ret PNone,
     say "Error: NEWS_API_KEY not found. Please set it in your .env file." w).
Proof.
  intros Hkey. unfold get_headlines_by_category. by rewrite Hkey.
Qed.

(** The function never touches the file system. *)
Lemma get_headlines_keeps_files (category language : string) (w : world) :
  files (get_headlines_by_category network environ category language w).2 = files w
  ∧ dirs (get_headlines_by_category network environ category language w).2 = dirs w.
Proof.
  destruct (Py.truthy (API_KEY environ)) eqn:Hkey.
  - rewrite get_headlines_with_key by done.
    destruct (network _) as [r | e].
    + destruct (_ ≫= _) as [v | e]; [done |]. by destruct (is_RequestException e).
    + by destruct (is_RequestException e).
  - by rewrite get_headlines_without_key.
Qed.

(** Joining in two steps is joining once. *)
Lemma os_path_join_app (a : string) (p q : list string) :
  os_path_join (os_path_join a p) q = os_path_join a (p ++ q).
Proof.
  revert a. induction p as [| b p IH]; intros a; [reflexivity |].
  simpl. apply IH.
Qed.

(** The handoff between the two scripts.  When the fetch returns a truthy
    value that the encoder accepts, the Fetcher leaves the encoded text in
    the file that the entry point of the Analyzer names as its input. *)
Lemma fetched_text_is_the_analyzer_input (w w1 : world) (articles : pyval)
    (text : string) (n : nat) :
  get_headlines_by_category network environ "general" "en" w = (Ret articles, w1) →
  Py.truthy articles = true →
  json_dumps articles = Ret text →
  Py.len articles = Ret n →
  files (fetchNews_main json_dumps json_written network script_dir environ w).2
    !! os_path_join script_dir [".."; "data"; "global_headlines.json"] = Some text.
Proof.
  intros Hget Htruthy Hdump Hlen.
  unfold fetchNews_main, mbind, M_bind. rewrite Hget, Htruthy.
  unfold dump_to_file. rewrite Hdump.
  unfold os_makedirs, write_file, lift, print, mbind, M_bind.
  rewrite Hlen. cbn [snd files].
  rewrite os_path_join_app. apply lookup_insert_eq.
Qed.

(** C4. When the API key variable is unset or empty,
    [get_headlines_by_category] returns [None], prints the configuration
    error and sends no request: the log of requests is the one it
    started with. *)
Theorem no_key_no_request (category language : string) (w : world) :
  environ !! "NEWS_API_KEY" = None ∨ environ !! "NEWS_API_KEY" = Some "" →
  get_headlines_by_category network environ category language w =
    (Ret PNone,
     say "Error: NEWS_API_KEY not found. Please set it in your .env file." w)
  ∧ sent (get_headlines_by_category network environ category language w).2 = sent w.
Proof.
  intros Hkey. apply key_missing_or_blank in Hkey.
  by rewrite get_headlines_without_key.
Qed.

(** C5, as amended. For every failure that the HTTP library signals with a
    [RequestException], that is an exception of the transport (timeout,
    connection error) or a response whose status is from 400 to 599,
    [get_headlines_by_category] catches the exception, prints it after
    "An error occurred: " and returns [None]; nothing is raised to the
    caller. *)
Theorem fetch_failure_gives_none (category language : string) (w : world) (e : exn) :
  Py.truthy (API_KEY environ) = true →
  fetch_fails_with category language e →
  get_headlines_by_category network environ category language w =
    (Ret PNone,
     say ("An error occurred: " +:+ exn_msg e) (after_request category language w)).
Proof.
  intros Hkey Hfail. rewrite get_headlines_with_key by done.
  destruct Hfail as [[-> Hreq] | (r & -> & Hs & ->)].
  - by rewrite Hreq.
  - by rewrite raise_for_status_error.
Qed.

(** C7, as amended. For a response with a 2xx status whose body is an
    object holding a list under [articles], [get_headlines_by_category]
    returns that very list, so the length of what it returns is the number
    of articles of the response.  The function applies no cap of its own:
    the limit of 100 is the page size that its request asks the API for. *)
Theorem fetch_returns_the_articles (category language : string) (w : world)
    (r : response) (d : gmap string pyval) (arts : list pyval) :
  Py.truthy (API_KEY environ) = true →
  network (fetch_request category language) = Ret r →
  (200 ≤ status_code r < 300)%Z →
  json_result r = Ret (PDict d) →
  d !! "articles" = Some (PList arts) →
  ∃ out,
    get_headlines_by_category network environ category language w =
      (Ret (PList out), after_request category language w)
    ∧ out = arts
    ∧ length out = length arts
    ∧ ("pageSize", PInt 100) ∈ req_params (fetch_request category language).
Proof.
  intros Hkey Hnet Hs Hjson Hd. exists arts.
  rewrite get_headlines_with_key by done.
  rewrite Hnet. rewrite raise_for_status_other by lia. simpl.
  rewrite Hjson. simpl. rewrite Hd. simpl.
  split; [done |]. split; [done |]. split; [done |].
  unfold fetch_request, fetch_params. simpl.
  apply list_elem_of_In. simpl. tauto.
Qed.

(** C10. When the request succeeds with a 2xx status and the body is an
    object without the key [articles], [get_headlines_by_category]
    returns the empty list: neither [None] nor an exception. *)
Theorem missing_articles_key_gives_empty_list (category language : string)
    (w : world) (r : response) (d : gmap string pyval) :
  Py.truthy (API_KEY environ) = true →
  network (fetch_request category language) = Ret r →
  (200 ≤ status_code r < 300)%Z →
  json_result r = Ret (PDict d) →
  d !! "articles" = None →
  get_headlines_by_category network environ category language w =
    (Ret (PList []), after_request category language w).
Proof.
  intros Hkey Hnet Hs Hjson Hd.
  rewrite get_headlines_with_key by done.
  rewrite Hnet. rewrite raise_for_status_other by lia. simpl.
  rewrite Hjson. simpl. by rewrite Hd.
Qed.

(** C9. When [get_headlines_by_category] returns the empty list, the entry
    point of the Fetcher does what it does when the function returns
    [None]: it writes no file, creates no directory and prints
    "Could not fetch or save articles." before the closing line. *)
Theorem empty_fetch_reported_as_failure (w w1 : world) (articles : pyval) :
  get_headlines_by_category network environ "general" "en" w = (Ret articles, w1) →
  articles = PList [] ∨ articles = PNone →
  fetchNews_main json_dumps json_written network script_dir environ w =
    (Ret (), say (nl +:+ "Fetching complete!")
               (say "Could not fetch or save articles." w1))
  ∧ files w1 = files w
  ∧ dirs w1 = dirs w.
Proof.
  intros Hget Hempty.
  pose proof (get_headlines_keeps_files "general" "en" w) as [Hfiles Hdirs].
  rewrite Hget in Hfiles, Hdirs. simpl in Hfiles, Hdirs.
  split; [| done].
  unfold fetchNews_main, mbind, M_bind. rewrite Hget.
  by destruct Hempty as [-> | ->].
Qed.

End Fetcher_properties.

(** ** Properties of the Analyzer *)

(** [article.get('title')] on a record. *)
Definition title_of (a : gmap string pyval) : pyval := default PNone (a !! "title").

(** The record has a usable title: the field is there and is not falsy. *)
Definition has_title (a : gmap string pyval) : bool := Py.truthy (title_of a).

(** The record with the two fields set. *)
Definition annotate (label score : pyval) (a : gmap string pyval) : gmap string pyval :=
  <["sentiment_score" := score]> (<["sentiment" := label]> a).

Lemma has_title_annotate (label score : pyval) (a : gmap string pyval) :
  has_title (annotate label score a) = has_title a.
Proof.
  unfold has_title, title_of, annotate.
  by rewrite !lookup_insert_ne.
Qed.

(** The fields of an annotated record. *)
Lemma annotate_fields (label : string) (score : float) (a : gmap string pyval) :
  label ≠ "" → in_unit_interval score = true →
  let o := annotate (PStr label) (PFloat score) a in
  dom o = dom a ∪ {[ "sentiment"; "sentiment_score" ]}
  ∧ (∃ label : string, o !! "sentiment" = Some (PStr label) ∧ label ≠ "")
  ∧ (∃ score : float, o !! "sentiment_score" = Some (PFloat score)
                      ∧ in_unit_interval score = true)
  ∧ ∀ k, k ≠ "sentiment" → k ≠ "sentiment_score" → o !! k = a !! k.
Proof.
  intros Hlabel Hscore o. subst o. unfold annotate.
  split; [| split; [| split]].
  - rewrite !dom_insert_L. apply set_eq. intros k.
    rewrite !elem_of_union, !elem_of_singleton. tauto.
  - exists label. split; [| done].
    rewrite lookup_insert_ne by done. apply lookup_insert_eq.
  - exists score. split; [| done]. apply lookup_insert_eq.
  - intros k Hk1 Hk2. by rewrite !lookup_insert_ne.
Qed.

Section Analyzer_properties.

Variable json_loads : string → outcome pyval.
Variable json_dumps : pyval → outcome string.
Variable json_written : pyval → string.
Variable open_error : gmap string string → gset string → string → exn.
Variable pipeline : string → outcome (pyval → outcome pyval).
Variable py_str : pyval → string.
Variable format_2f : pyval → outcome string.
Variable script_dir : string.

(** The classifier of a run: what the loading of the model returned. *)
Variable sentiment_pipeline : pyval → outcome pyval.
Hypothesis model_loads : pipeline "sentiment-analysis" = Ret sentiment_pipeline.

(** The classifier answers the text [t] with a sequence whose first
    element holds [label] and [score]. *)
Definition classifier_gives (t label score : pyval) : Prop :=
  ∃ r rest, sentiment_pipeline t = Ret (PList (PDict r :: rest))
            ∧ r !! "label" = Some label
            ∧ r !! "score" = Some score.

(** The contract of the inference service: a non-empty string label and a
    float score between 0 and 1. *)
Definition classifier_contract (t : pyval) : Prop :=
  ∃ (label : string) (score : float),
    label ≠ "" ∧ in_unit_interval score = true
    ∧ classifier_gives t (PStr label) (PFloat score).

(** [o] is the record [a] with the answer of the classifier on its title. *)
Definition annotated_from (a o : gmap string pyval) : Prop :=
  ∃ label score, classifier_gives (title_of a) label score
                 ∧ o = annotate label score a.

Lemma classifier_gives_unique (t label score label' score' : pyval) :
  classifier_gives t label score → classifier_gives t label' score' →
  label = label' ∧ score = score'.
Proof.
  intros (r & rest & Hc & Hl & Hs) (r' & rest' & Hc' & Hl' & Hs').
  rewrite Hc in Hc'. simplify_eq. split; congruence.
Qed.

(** The loop keeps the records with a usable title, in order, each with
    the answer of the classifier, and appends them to the accumulator. *)
Lemma analyze_loop_records (arts : list (gmap string pyval)) (acc : list pyval) :
  (∀ a, a ∈ arts → has_title a = true →
        ∃ label score, classifier_gives (title_of a) label score) →
  ∃ out,
    analyze_loop sentiment_pipeline (PDict <$> arts) acc
      = Ret (acc ++ (PDict <$> out))%list
    ∧ Forall2 annotated_from (filter (λ a, has_title a = true) arts) out.
Proof.
  revert acc. induction arts as [| a arts IH]; intros acc Hclf.
  - exists []. split; [by rewrite app_nil_r | constructor].
  - assert (Hrest : ∀ b, b ∈ arts → has_title b = true →
              ∃ label score, classifier_gives (title_of b) label score).
    { intros b Hb. apply Hclf. by right. }
    rewrite fmap_cons. simpl. fold (title_of a). fold (has_title a).
    destruct (has_title a) eqn:Ht; simpl.
    + destruct (Hclf a) as (label & score & Hgives); [by left | done |].
      pose proof Hgives as (r & rest & Hc & Hl & Hs).
      rewrite Hc. simpl.
      rewrite Hl. simpl. rewrite Hs. simpl.
      destruct (IH (acc ++ [PDict (annotate label score a)])%list Hrest)
        as (out & Hloop & Hout).
      exists (annotate label score a :: out). split.
      * fold (annotate label score a). rewrite Hloop.
        by rewrite <- app_assoc.
      * rewrite filter_cons_True by done. constructor; [| done].
        by exists label, score.
    + destruct (IH acc Hrest) as (out & Hloop & Hout).
      exists out. split; [done |].
      rewrite filter_cons_False; [done | congruence].
Qed.

(** The run of [analyzeSentiment] on a file that holds a list of
    records. *)
Lemma analyzeSentiment_on_records (path contents : string) (w : world)
    (arts : list (gmap string pyval)) :
  files w !! path = Some contents →
  json_loads contents = Ret (PList (PDict <$> arts)) →
  (∀ a, a ∈ arts → has_title a = true →
        ∃ label score, classifier_gives (title_of a) label score) →
  ∃ out,
    analyzeSentiment json_loads open_error pipeline path w =
      (Ret (PList (PDict <$> out)),
       say "Analysis complete."
         (say ("Analyzing sentiment for " +:+ pretty (length arts) +:+ " articles...")
            (say "Model loaded successfully"
               (say "Loading the sentiment analysis model" w))))
    ∧ Forall2 annotated_from (filter (λ a, has_title a = true) arts) out.
Proof.
  intros Hfile Hjson Hclf.
  destruct (analyze_loop_records arts [] Hclf) as (out & Hloop & Hout).
  exists out. split; [| done].
  unfold analyzeSentiment. rewrite model_loads.
  unfold mbind, M_bind, try_except, open_read, print, lift, mret, M_ret. simpl.
  rewrite Hfile, Hjson. simpl. rewrite Hloop. simpl.
  by rewrite length_fmap.
Qed.

(** C1. On a file that holds a list of records, with a classifier that
    answers every usable title, [analyzeSentiment] returns the records
    whose title is present and not falsy, in the order of the input, each
    with the answer of the classifier; a record without a title or with an
    empty one is left out, and the length of the output is the number of
    input records with a usable title. *)
Theorem analyzer_keeps_titled_records (path contents : string) (w : world)
    (arts : list (gmap string pyval)) :
  files w !! path = Some contents →
  json_loads contents = Ret (PList (PDict <$> arts)) →
  (∀ a, a ∈ arts → has_title a = true →
        ∃ label score, classifier_gives (title_of a) label score) →
  ∃ out,
    (analyzeSentiment json_loads open_error pipeline path w).1 = Ret (PList (PDict <$> out))
    ∧ Forall2 annotated_from (filter (λ a, has_title a = true) arts) out
    ∧ Forall (λ o, has_title o = true) out
    ∧ length out = length (filter (λ a, has_title a = true) arts).
Proof.
  intros Hfile Hjson Hclf.
  destruct (analyzeSentiment_on_records path contents w arts Hfile Hjson Hclf)
    as (out & Hrun & Hout).
  exists out. rewrite Hrun. repeat split; [done | |].
  - apply (Forall2_Forall_r _ (λ a, has_title a = true) _ _ Hout).
    apply Forall_forall. intros a Ha o (label & score & _ & ->).
    apply list_elem_of_filter in Ha as [Ha _].
    by rewrite has_title_annotate.
  - symmetry. by eapply Forall2_length.
Qed.

(** C2. With a classifier that keeps the contract of the inference
    service, every record that [analyzeSentiment] returns has exactly the
    fields of its input record and the fields [sentiment], a non-empty
    string, and [sentiment_score], a float between 0 and 1; every other
    field has the value it had in the input record. *)
Theorem analyzer_adds_two_fields (path contents : string) (w : world)
    (arts : list (gmap string pyval)) :
  files w !! path = Some contents →
  json_loads contents = Ret (PList (PDict <$> arts)) →
  (∀ a, a ∈ arts → has_title a = true → classifier_contract (title_of a)) →
  ∃ out,
    (analyzeSentiment json_loads open_error pipeline path w).1 = Ret (PList (PDict <$> out))
    ∧ Forall2
        (λ a o,
           dom o = dom a ∪ {[ "sentiment"; "sentiment_score" ]}
           ∧ (∃ label : string, o !! "sentiment" = Some (PStr label) ∧ label ≠ "")
           ∧ (∃ score : float, o !! "sentiment_score" = Some (PFloat score)
                               ∧ in_unit_interval score = true)
           ∧ ∀ k, k ≠ "sentiment" → k ≠ "sentiment_score" → o !! k = a !! k)
        (filter (λ a, has_title a = true) arts) out.
Proof.
  intros Hfile Hjson Hclf.
  destruct (analyzeSentiment_on_records path contents w arts Hfile Hjson)
    as (out & Hrun & Hout).
  { intros a Ha Ht. destruct (Hclf a Ha Ht) as (label & score & _ & _ & Hg).
    by exists (PStr label), (PFloat score). }
  exists out. rewrite Hrun. split; [done |].
  apply (Forall2_with_left _ (λ a, classifier_contract (title_of a)) _ _ _ Hout).
  - apply Forall_forall. intros a Ha.
    apply list_elem_of_filter in Ha as [Ht Ha]. by apply Hclf.
  - intros a o (label & score & Hgives & ->) (l & f & Hl & Hf & Hcontract).
    destruct (classifier_gives_unique _ _ _ _ _ Hgives Hcontract) as [-> ->].
    apply annotate_fields; done.
Qed.

(** C6, as amended. When the model loads and [open] reports the missing
    input file with [FileNotFoundError], [analyzeSentiment] prints the
    error that names the path and returns [None], the file system is the
    one it started with, and the entry point writes nothing for the
    result [None]. *)
Theorem missing_input_file (path : string) (w : world) :
  files w !! path = None →
  is_FileNotFoundError (open_error (files w) (dirs w) path) = true →
  analyzeSentiment json_loads open_error pipeline path w =
    (Ret PNone,
     say ("Error: The file " +:+ path +:+ " was not found.")
       (say "Model loaded successfully"
          (say "Loading the sentiment analysis model" w)))
  ∧ files (analyzeSentiment json_loads open_error pipeline path w).2 = files w
  ∧ ∀ w', save_and_report json_dumps json_written py_str format_2f script_dir PNone w'
          = (Ret (), w').
Proof.
  intros Hfile Herror.
  assert (Hrun : analyzeSentiment json_loads open_error pipeline path w =
    (Ret PNone,
     say ("Error: The file " +:+ path +:+ " was not found.")
       (say "Model loaded successfully"
          (say "Loading the sentiment analysis model" w)))).
  { unfold analyzeSentiment. rewrite model_loads.
    unfold mbind, M_bind, try_except, open_read, print, lift, mret, M_ret. simpl.
    rewrite Hfile. by rewrite Herror. }
  rewrite Hrun. done.
Qed.

(** C3. The entry point of analyzeSentiment.py fails in every world: the
    name it calls, [analyze_headlines], is not bound in the module, whose
    function is [analyzeSentiment]; a [NameError] is raised before
    anything is read, printed or written. *)
Theorem entry_point_raises_NameError (w : world) :
  analyzeSentiment_main json_loads json_dumps json_written open_error pipeline py_str format_2f script_dir w =
    (Raise (mk_exn NameError "name 'analyze_headlines' is not defined"), w)
  ∧ analyzer_globals json_loads open_error pipeline !! "analyze_headlines" = None
  ∧ is_Some (analyzer_globals json_loads open_error pipeline !! "analyzeSentiment").
Proof.
  assert (Hname : analyzer_globals json_loads open_error pipeline !! "analyze_headlines" = None).
  { unfold analyzer_globals. by rewrite !lookup_insert_ne. }
  split; [| split; [done |]].
  - unfold analyzeSentiment_main, load_name, mbind, M_bind, lift.
    by rewrite Hname.
  - unfold analyzer_globals. rewrite lookup_insert_eq. by eexists.
Qed.

End Analyzer_properties.

(** *** The Fetcher on the sample inputs *)

Lemma no_key_no_request_witness :
  get_headlines_by_category Sample.times_out Sample.blank_key "general" "en"
      Sample.empty_world =
    (Ret PNone,
     say "Error: NEWS_API_KEY not found. Please set it in your .env file."
       Sample.empty_world)
  ∧ sent (get_headlines_by_category Sample.times_out Sample.blank_key "general" "en"
            Sample.empty_world).2 = [].
Proof.
  apply (no_key_no_request Sample.times_out Sample.blank_key "general" "en"
           Sample.empty_world).
  right. reflexivity.
Defined.

(** C5, as stated, fails: a response with status 300 is not a 2xx response,
    yet [raise_for_status] lets it through and the function returns the
    articles of its body instead of [None]. *)
Lemma status_300_returns_articles :
  let network := Sample.answers 300 "Multiple Choices" (Sample.body (PList Sample.three_articles)) in
  let result :=
    get_headlines_by_category network Sample.with_key "general" "en"
      Sample.empty_world in
  (∃ r, network (fetch_request Sample.with_key "general" "en") = Ret r
        ∧ ¬ (200 ≤ status_code r < 300)%Z)
  ∧ result.1 = Ret (PList Sample.three_articles)
  ∧ result.1 ≠ Ret PNone.
Proof.
  split; [| split].
  - eexists. split; [reflexivity |]. simpl. lia.
  - reflexivity.
  - discriminate.
Qed.

Lemma fetch_failure_gives_none_witness :
  get_headlines_by_category Sample.times_out Sample.with_key "general" "en"
      Sample.empty_world =
    (Ret PNone,
     say "An error occurred: HTTPSConnectionPool(host='newsapi.org', port=443): Read timed out."
       (after_request Sample.with_key "general" "en" Sample.empty_world)).
Proof.
  apply (fetch_failure_gives_none Sample.times_out Sample.with_key "general" "en"
           Sample.empty_world
           (mk_exn Requests_Timeout
              "HTTPSConnectionPool(host='newsapi.org', port=443): Read timed out.")).
  - reflexivity.
  - left. split; reflexivity.
Defined.

(** A 404 answer is reported with the message of [raise_for_status]. *)
Example not_found_is_reported :
  get_headlines_by_category
      (Sample.answers 404 "Not Found" PNone) Sample.with_key "general" "en"
      Sample.empty_world =
    (Ret PNone,
     say "An error occurred: 404 Client Error: Not Found for url: https://newsapi.org/v2/top-headlines"
       (after_request Sample.with_key "general" "en" Sample.empty_world)).
Proof. reflexivity. Qed.

(** C7, as stated, fails: the length is not capped.  A response with 101
    articles comes back with its 101 articles. *)
Lemma uncapped_response_returned_whole :
  let network := Sample.answers 200 "OK" (Sample.body (PList Sample.many_articles)) in
  let result :=
    get_headlines_by_category network Sample.with_key "general" "en"
      Sample.empty_world in
  ∃ out, result.1 = Ret (PList out)
         ∧ length Sample.many_articles = 101
         ∧ length out = 101
         ∧ length out ≠ Nat.min (length Sample.many_articles) 100.
Proof.
  exists Sample.many_articles.
  split; [reflexivity |]. split; [reflexivity |]. split; [reflexivity |].
  vm_compute. lia.
Qed.

Lemma fetch_returns_the_articles_witness :
  ∃ out,
    get_headlines_by_category
        (Sample.answers 200 "OK" (Sample.body (PList Sample.three_articles)))
        Sample.with_key "technology" "en" Sample.empty_world =
      (Ret (PList out), after_request Sample.with_key "technology" "en" Sample.empty_world)
    ∧ out = Sample.three_articles
    ∧ length out = length Sample.three_articles
    ∧ ("pageSize", PInt 100) ∈ req_params (fetch_request Sample.with_key "technology" "en").
Proof.
  apply (fetch_returns_the_articles
           (Sample.answers 200 "OK" (Sample.body (PList Sample.three_articles)))
           Sample.with_key "technology" "en" Sample.empty_world
           (mk_response 200 "OK" Sample.api_url
              (Ret (Sample.body (PList Sample.three_articles))))
           {[ "articles" := PList Sample.three_articles ]}
           Sample.three_articles).
  - reflexivity.
  - reflexivity.
  - simpl. lia.
  - reflexivity.
  - reflexivity.
Defined.

Lemma missing_articles_key_gives_empty_list_witness :
  get_headlines_by_category
      (Sample.answers 200 "OK" (PDict {[ "status" := PStr "ok" ]}))
      Sample.with_key "general" "en" Sample.empty_world =
    (Ret (PList []), after_request Sample.with_key "general" "en" Sample.empty_world).
Proof.
  apply (missing_articles_key_gives_empty_list
           (Sample.answers 200 "OK" (PDict {[ "status" := PStr "ok" ]}))
           Sample.with_key "general" "en" Sample.empty_world
           (mk_response 200 "OK" Sample.api_url (Ret (PDict {[ "status" := PStr "ok" ]})))
           {[ "status" := PStr "ok" ]}).
  - reflexivity.
  - reflexivity.
  - simpl. lia.
  - reflexivity.
  - reflexivity.
Defined.

Lemma empty_fetch_reported_as_failure_witness :
  fetchNews_main Sample.encode_nothing Sample.nothing_written
      (Sample.answers 200 "OK" (Sample.body (PList []))) "/srv/backend/scripts"
      Sample.with_key Sample.empty_world =
    (Ret (), say (nl +:+ "Fetching complete!")
               (say "Could not fetch or save articles."
                  (after_request Sample.with_key "general" "en" Sample.empty_world)))
  ∧ files (after_request Sample.with_key "general" "en" Sample.empty_world) = ∅
  ∧ dirs (after_request Sample.with_key "general" "en" Sample.empty_world) = ∅.
Proof.
  apply (empty_fetch_reported_as_failure Sample.encode_nothing Sample.nothing_written
           (Sample.answers 200 "OK" (Sample.body (PList []))) "/srv/backend/scripts"
           Sample.with_key Sample.empty_world
           (after_request Sample.with_key "general" "en" Sample.empty_world)
           (PList [])).
  - reflexivity.
  - left. reflexivity.
Defined.

(** *** The Analyzer on the sample inputs *)

Lemma sample_classifier_answers (t : pyval) :
  classifier_gives Sample.positive t (PStr "POSITIVE") (PFloat 0.75%float).
Proof.
  eexists _, []. split; [reflexivity |]. split; reflexivity.
Qed.

Lemma analyzer_keeps_titled_records_witness :
  ∃ out,
    (analyzeSentiment Sample.decode_scenario Sample.posix_open_error
       Sample.load_positive Sample.input_path
       Sample.scenario_world).1 = Ret (PList (PDict <$> out))
    ∧ Forall2 (annotated_from Sample.positive)
        (filter (λ a, has_title a = true) Sample.scenario) out
    ∧ Forall (λ o, has_title o = true) out
    ∧ length out = length (filter (λ a, has_title a = true) Sample.scenario).
Proof.
  apply (analyzer_keeps_titled_records Sample.decode_scenario
           Sample.posix_open_error Sample.load_positive Sample.positive eq_refl
           Sample.input_path "scenario" Sample.scenario_world Sample.scenario).
  - reflexivity.
  - reflexivity.
  - intros a _ _. exists (PStr "POSITIVE"), (PFloat 0.75%float).
    apply sample_classifier_answers.
Defined.

(** The scenario of the specification: of the three records, only the first
    is returned, with both fields set. *)
Example scenario_keeps_first_record :
  (analyzeSentiment Sample.decode_scenario Sample.posix_open_error
       Sample.load_positive Sample.input_path
     Sample.scenario_world).1 =
    Ret (PList [PDict (<["sentiment_score" := PFloat 0.75%float]>
                         (<["sentiment" := PStr "POSITIVE"]>
                            {[ "title" := PStr "Markets rally on strong earnings" ]}))]).
Proof. vm_compute. reflexivity. Qed.

Lemma analyzer_adds_two_fields_witness :
  ∃ out,
    (analyzeSentiment Sample.decode_scenario Sample.posix_open_error
       Sample.load_positive Sample.input_path
       Sample.scenario_world).1 = Ret (PList (PDict <$> out))
    ∧ Forall2
        (λ a o,
           dom o = dom a ∪ {[ "sentiment"; "sentiment_score" ]}
           ∧ (∃ label : string, o !! "sentiment" = Some (PStr label) ∧ label ≠ "")
           ∧ (∃ score : float, o !! "sentiment_score" = Some (PFloat score)
                               ∧ in_unit_interval score = true)
           ∧ ∀ k, k ≠ "sentiment" → k ≠ "sentiment_score" → o !! k = a !! k)
        (filter (λ a, has_title a = true) Sample.scenario) out.
Proof.
  apply (analyzer_adds_two_fields Sample.decode_scenario
           Sample.posix_open_error Sample.load_positive Sample.positive eq_refl
           Sample.input_path "scenario" Sample.scenario_world Sample.scenario).
  - reflexivity.
  - reflexivity.
  - intros a _ _. exists "POSITIVE", 0.75%float.
    split; [discriminate |]. split; [reflexivity |].
    apply sample_classifier_answers.
Defined.

(** C6, as stated, fails in two ways for a path that holds no file.  When
    the loading of the model raises, the function raises before it opens
    anything; and when the path lies below a regular file, [open] raises
    [NotADirectoryError], which the handler does not catch. *)
Lemma missing_file_may_raise :
  files Sample.scenario_world !! "data/absent.json" = None
  ∧ (analyzeSentiment Sample.decode_scenario Sample.posix_open_error
       Sample.load_fails "data/absent.json" Sample.scenario_world).1
      = Raise (mk_exn OSError
                 "We couldn't connect to 'https://huggingface.co' to load this file")
  ∧ files Sample.scenario_world !! "data/global_headlines.json/part" = None
  ∧ (analyzeSentiment Sample.decode_scenario Sample.posix_open_error
       Sample.load_positive "data/global_headlines.json/part"
       Sample.scenario_world).1
      = Raise (mk_exn NotADirectoryError
                 "[Errno 20] Not a directory: 'data/global_headlines.json/part'").
Proof.
  split; [reflexivity |]. split; [reflexivity |]. split; reflexivity.
Qed.

Lemma missing_input_file_witness :
  analyzeSentiment Sample.decode_scenario Sample.posix_open_error
       Sample.load_positive "data/absent.json"
      Sample.scenario_world =
    (Ret PNone,
     say "Error: The file data/absent.json was not found."
       (say "Model loaded successfully"
          (say "Loading the sentiment analysis model" Sample.scenario_world)))
  ∧ files (analyzeSentiment Sample.decode_scenario Sample.posix_open_error
       Sample.load_positive
             "data/absent.json" Sample.scenario_world).2 = files Sample.scenario_world
  ∧ ∀ w', save_and_report Sample.encode_nothing Sample.nothing_written
            Sample.show_nothing Sample.format_nothing "/srv/backend/scripts" PNone w'
          = (Ret (), w').
Proof.
  apply (missing_input_file Sample.decode_scenario Sample.encode_nothing
           Sample.nothing_written Sample.posix_open_error Sample.load_positive
           Sample.show_nothing Sample.format_nothing "/srv/backend/scripts"
           Sample.positive eq_refl "data/absent.json" Sample.scenario_world).
  - reflexivity.
  - reflexivity.
Defined.

(** * Further properties of the two scripts *)

(** Unfolding the operations of the monad [M]. *)
Ltac unfold_M :=
  unfold dump_to_file in *;
  unfold mbind, M_bind, mret, M_ret, try_except, lift, print, write_file,
    os_makedirs, open_read, requests_get in *.

(** ** More sample inputs *)

Module Case.

(** A client that fails outside the hierarchy of [requests]. *)
Definition breaks (_ : http_request) : outcome response :=
  throw ValueError "check_hostname requires server_hostname".

(** A 200 answer whose body is not JSON, with the exception that
    [response.json()] raises for it. *)
Definition undecodable (e : exn) (_ : http_request) : outcome response :=
  Ret (mk_response 200 "OK" Sample.api_url (Raise e)).

Definition requests_decode_error : exn :=
  mk_exn Requests_JSONDecodeError "Expecting value: line 1 column 1 (char 0)".

Definition json_decode_error : exn :=
  mk_exn JSONDecodeError "Expecting value: line 1 column 1 (char 0)".

(** An encoder that writes the same text for every value. *)
Definition encode_as (text : string) (_ : pyval) : outcome string := Ret text.

Definition scripts : string := "/srv/backend/scripts".

Definition headlines_file : string :=
  "/srv/backend/scripts/../data/global_headlines.json".

Definition analyzed_file : string :=
  "/srv/backend/scripts/../data/analyzed_headlines.json".

(** A world with an older file of headlines and a file of notes. *)
Definition used_world : world :=
  mk_world (<[headlines_file := "[]"]> {[ "notes.txt" := "keep" ]}) ∅ [] [].

(** A decoder that gives the same value for every text, and one that
    rejects every text. *)
Definition decode_to (v : pyval) (_ : string) : outcome pyval := Ret v.
Definition reject (_ : string) : outcome pyval := Raise json_decode_error.

(** A world that holds the input file of the Analyzer. *)
Definition input_world : world :=
  mk_world {[ Sample.input_path := "text of the file" ]} ∅ [] [].

(** A classifier whose outcome on the text "b" is given, and which labels
    every other text POSITIVE. *)
Definition on_b (o : outcome pyval) (t : pyval) : outcome pyval :=
  match t with
  | PStr s => if String.eqb s "b" then o else Sample.positive t
  | _ => Sample.positive t
  end.

(** The loading that returns a given classifier. *)
Definition loads (clf : pyval → outcome pyval) (_ : string) :
    outcome (pyval → outcome pyval) := Ret clf.

Definition out_of_memory : exn := mk_exn OSError "out of memory".

(** A titled record, an untitled one, the record titled "b" and one more. *)
Definition items_ab : list pyval :=
  [PDict (Sample.headline "a"); PDict {[ "source" := PStr "x" ]};
   PDict (Sample.headline "b"); PDict (Sample.headline "c")].

(** The same list with a bare string in the place of the third record. *)
Definition items_with_string : list pyval :=
  [PDict (Sample.headline "a"); PDict {[ "source" := PStr "x" ]};
   PStr "b"; PDict (Sample.headline "c")].

(** A record as the analysis with [Sample.positive] leaves it. *)
Definition analyzed (title : string) : gmap string pyval :=
  <["sentiment_score" := PFloat 0.75%float]>
    (<["sentiment" := PStr "POSITIVE"]> (Sample.headline title)).

(** [str] on strings; the other values are not shown. *)
Definition show (v : pyval) : string :=
  match v with
  | PStr text => text
  | _ => ""
  end.

Definition sample_lines (title : string) : list string :=
  ["Headline: " +:+ title; "Sentiment: POSITIVE (Score: 0.75)" +:+ nl].

Definition format_score (_ : pyval) : outcome string := Ret "0.75".

End Case.

(** ** The Fetcher *)

Section Fetcher_more.

Variable json_dumps : pyval → outcome string.
Variable json_written : pyval → string.
Variable network : http_request → outcome response.
Variable script_dir : string.
Variable environ : gmap string string.

(** The file that the entry point of the Fetcher writes, spelled as the
    entry point of the Analyzer spells its input. *)
Definition headlines_path : string :=
  os_path_join script_dir [".."; "data"; "global_headlines.json"].

Definition data_dir_path : string := os_path_join script_dir [".."; "data"].

(** X1. Whatever the key and the network are, [get_headlines_by_category]
    leaves files and directories alone, only adds lines to the console, and
    sends exactly one request when there is a key and none when there is
    not: there is no retry. *)
Theorem fetch_sends_one_request_and_keeps_files (category language : string)
    (w : world) :
  let w' := (get_headlines_by_category network environ category language w).2 in
  files w' = files w
  ∧ dirs w' = dirs w
  ∧ sent w' = (if Py.truthy (API_KEY environ)
               then (sent w ++ [fetch_request environ category language])%list
               else sent w)
  ∧ ∃ lines, console w' = (console w ++ lines)%list.
Proof.
  assert (Hsplit : ∀ P Q R S : Prop, P → Q → R → S → P ∧ Q ∧ R ∧ S) by (by intros).
  destruct (Py.truthy (API_KEY environ)) eqn:Hkey; simpl.
  - rewrite get_headlines_with_key by done.
    destruct (network _) as [r | e].
    + destruct (_ ≫= _) as [v | e]; [| destruct (is_RequestException e)]; simpl;
        apply Hsplit; try done; eexists; by rewrite <- ?app_assoc.
    + destruct (is_RequestException e); simpl;
        apply Hsplit; try done; eexists; by rewrite <- ?app_assoc.
  - rewrite get_headlines_without_key by done. simpl.
    apply Hsplit; try done. by eexists.
Qed.

(** X2. An exception that is not a [RequestException], raised by the
    client or by the decoding of the body, is not caught: the function
    raises it to its caller after the request. *)
Theorem foreign_exception_propagates (category language : string) (w : world)
    (e : exn) :
  Py.truthy (API_KEY environ) = true →
  is_RequestException e = false →
  network (fetch_request environ category language) = Raise e
  ∨ (∃ r, network (fetch_request environ category language) = Ret r
          ∧ ¬ (400 ≤ status_code r < 600)%Z
          ∧ json_result r = Raise e) →
  get_headlines_by_category network environ category language w =
    (Raise e, after_request environ category language w).
Proof.
  intros Hkey He Hraise. rewrite get_headlines_with_key by done.
  destruct Hraise as [-> | (r & -> & Hs & Hjson)].
  - by rewrite He.
  - rewrite raise_for_status_other by done. simpl. rewrite Hjson. simpl.
    by rewrite He.
Qed.

(** X3. A body that the decoder of [requests] rejects with its own
    [JSONDecodeError], a [RequestException], is handled like a failure of
    the transport: the error is printed and [None] is returned. *)
Theorem undecodable_body_gives_none (category language : string) (w : world)
    (r : response) (e : exn) :
  Py.truthy (API_KEY environ) = true →
  network (fetch_request environ category language) = Ret r →
  ¬ (400 ≤ status_code r < 600)%Z →
  json_result r = Raise e →
  is_RequestException e = true →
  get_headlines_by_category network environ category language w =
    (Ret PNone,
     say ("An error occurred: " +:+ exn_msg e)
       (after_request environ category language w)).
Proof.
  intros Hkey Hnet Hs Hjson He. rewrite get_headlines_with_key by done.
  rewrite Hnet. rewrite raise_for_status_other by done. simpl.
  rewrite Hjson. simpl. by rewrite He.
Qed.

(** X4. A body that decodes to something other than an object (a list, a
    string, a number, null) makes [data.get] fail: the function raises
    [AttributeError], which its handler does not catch. *)
Theorem non_object_body_raises_AttributeError (category language : string)
    (w : world) (r : response) (data : pyval) :
  Py.truthy (API_KEY environ) = true →
  network (fetch_request environ category language) = Ret r →
  ¬ (400 ≤ status_code r < 600)%Z →
  json_result r = Ret data →
  (∀ d, data ≠ PDict d) →
  get_headlines_by_category network environ category language w =
    (Raise (mk_exn AttributeError
              ("'" +:+ Py.type_name data +:+ "' object has no attribute 'get'")),
     after_request environ category language w).
Proof.
  intros Hkey Hnet Hs Hjson Hdata. rewrite get_headlines_with_key by done.
  rewrite Hnet. rewrite raise_for_status_other by done. simpl.
  rewrite Hjson. simpl.
  destruct data as [| b | z | f | s | l | d]; try reflexivity.
  by destruct (Hdata d).
Qed.

(** X5. The value under [articles] is returned as it is, whatever it is,
    and nothing more is printed: a body with [articles] set to null gives
    [None] without any error message. *)
Theorem articles_value_returned_unchecked (category language : string)
    (w : world) (r : response) (d : gmap string pyval) (v : pyval) :
  Py.truthy (API_KEY environ) = true →
  network (fetch_request environ category language) = Ret r →
  ¬ (400 ≤ status_code r < 600)%Z →
  json_result r = Ret (PDict d) →
  d !! "articles" = Some v →
  get_headlines_by_category network environ category language w =
    (Ret v, after_request environ category language w).
Proof.
  intros Hkey Hnet Hs Hjson Hd. rewrite get_headlines_with_key by done.
  rewrite Hnet. rewrite raise_for_status_other by done. simpl.
  rewrite Hjson. simpl. by rewrite Hd.
Qed.

(** The entry point of the Fetcher once the fetch has returned. *)
Lemma fetchNews_main_after_fetch (w w1 : world) (articles : pyval) :
  get_headlines_by_category network environ "general" "en" w = (Ret articles, w1) →
  fetchNews_main json_dumps json_written network script_dir environ w =
    if Py.truthy articles then
      let opened :=
        mk_world (<[headlines_path := ""]> (files w1)) ({[data_dir_path]} ∪ dirs w1)
          (console w1) (sent w1) in
      match json_dumps articles with
      | Raise e =>
          (Raise e,
           mk_world (<[headlines_path := json_written articles]> (files opened))
             (dirs opened) (console w1) (sent w1))
      | Ret text =>
          let written :=
            mk_world (<[headlines_path := text]> (files opened)) (dirs opened)
              (console w1) (sent w1) in
          match Py.len articles with
          | Raise e => (Raise e, written)
          | Ret n =>
              (Ret (),
               say (nl +:+ "Fetching complete!")
                 (say ("Successfully saved " +:+ pretty n +:+ " articles to "
                         +:+ headlines_path) written))
          end
      end
    else
      (Ret (), say (nl +:+ "Fetching complete!")
                 (say "Could not fetch or save articles." w1)).
Proof.
  intros Hget. unfold fetchNews_main, mbind, M_bind at 1 2. rewrite Hget.
  destruct (Py.truthy articles); [| reflexivity].
  cbv zeta. rewrite os_path_join_app. cbn [app].
  fold headlines_path. fold data_dir_path.
  unfold_M. cbn [files dirs console sent].
  destruct (json_dumps articles) as [text | e]; [| reflexivity].
  by destruct (Py.len articles).
Qed.


(** X7. Without a key the entry point sends no request and writes nothing;
    it prints the configuration error, the failure line and the closing
    line, and ends normally. *)
Theorem fetcher_without_key_ends_normally (w : world) :
  environ !! "NEWS_API_KEY" = None ∨ environ !! "NEWS_API_KEY" = Some "" →
  fetchNews_main json_dumps json_written network script_dir environ w =
    (Ret (),
     say (nl +:+ "Fetching complete!")
       (say "Could not fetch or save articles."
          (say "Error: NEWS_API_KEY not found. Please set it in your .env file." w))).
Proof.
  intros Hkey. apply key_missing_or_blank in Hkey.
  by rewrite (fetchNews_main_after_fetch w _ PNone
                (get_headlines_without_key network environ "general" "en" w Hkey)).
Qed.

(** X8. However the run ends, the entry point of the Fetcher changes no
    file other than the headlines file. *)
Theorem fetcher_touches_one_file (w : world) (path : string) :
  path ≠ headlines_path →
  files (fetchNews_main json_dumps json_written network script_dir environ w).2 !! path
    = files w !! path.
Proof.
  intros Hpath.
  pose proof (get_headlines_keeps_files network environ "general" "en" w) as [Hf _].
  destruct (get_headlines_by_category network environ "general" "en" w)
    as [[articles | e] w1] eqn:Hget; simpl in Hf.
  - rewrite (fetchNews_main_after_fetch w w1 articles Hget).
    destruct (Py.truthy articles); [| by rewrite <- Hf].
    destruct (json_dumps articles) as [text | e]; simpl.
    + destruct (Py.len articles); simpl;
        rewrite !lookup_insert_ne by done; by rewrite Hf.
    + rewrite !lookup_insert_ne by done. by rewrite Hf.
  - unfold fetchNews_main, mbind, M_bind at 1 2. rewrite Hget. simpl.
    by rewrite Hf.
Qed.

End Fetcher_more.

(** ** The Analyzer *)

(** One turn of the loop of [analyzeSentiment] on an item of the input:
    nothing for an item that is skipped, the annotated record for an item
    that is kept. *)
Definition analyze_one (sentiment_pipeline : pyval → outcome pyval)
    (article : pyval) : outcome (option pyval) :=
  title ← Py.get article "title" PNone;
  if negb (Py.truthy title) then Ret None
  else
    result ← sentiment_pipeline title;
    first ← Py.getitem result (Py.Index 0);
    sentiment ← Py.getitem first (Py.Key "label");
    first' ← Py.getitem result (Py.Index 0);
    sentiment_score ← Py.getitem first' (Py.Key "score");
    article ← Py.setitem article "sentiment" sentiment;
    article ← Py.setitem article "sentiment_score" sentiment_score;
    Ret (Some article).

(** Case analysis on the innermost outcome or test of the goal. *)
Ltac case_innermost o :=
  lazymatch o with
  | context [match ?o' with Ret _ => _ | Raise _ => _ end] => case_innermost o'
  | context [if ?b then _ else _] => case_innermost b
  | _ => destruct o
  end.

Ltac case_outcomes :=
  unfold mbind, outcome_bind; cbn beta iota;
  repeat match goal with
    | |- context [match ?o with Ret _ => _ | Raise _ => _ end] =>
        case_innermost o; cbn beta iota
    | |- context [if ?b then _ else _] => case_innermost b; cbn beta iota
    end.

(** The loop is its turns, one after the other. *)
Lemma analyze_loop_cons (clf : pyval → outcome pyval) (x : pyval)
    (rest acc : list pyval) :
  analyze_loop clf (x :: rest) acc =
    match analyze_one clf x with
    | Raise e => Raise e
    | Ret None => analyze_loop clf rest acc
    | Ret (Some y) => analyze_loop clf rest (acc ++ [y])
    end.
Proof.
  cbn [analyze_loop]. unfold analyze_one. case_outcomes; reflexivity.
Qed.

Lemma analyze_loop_app (clf : pyval → outcome pyval) (l1 l2 acc : list pyval) :
  analyze_loop clf (l1 ++ l2) acc =
    analyze_loop clf l1 acc ≫= analyze_loop clf l2.
Proof.
  revert acc. induction l1 as [| x l1 IH]; intros acc; [reflexivity |].
  rewrite <- app_comm_cons, !analyze_loop_cons.
  destruct (analyze_one clf x) as [[y |] | e]; [apply IH | apply IH | reflexivity].
Qed.

(** What a subscript that succeeds says of the object. *)
Lemma getitem_zero_ret (v x : pyval) :
  Py.getitem v (Py.Index 0) = Ret x →
  (∃ rest, v = PList (x :: rest)) ∨ (∃ c, x = PStr c).
Proof.
  destruct v as [| b | z | f | s | l | d]; try discriminate.
  - destruct s as [| c s]; [discriminate |].
    intros [= <-]. right. by eexists.
  - destruct l as [| y rest]; [discriminate |].
    intros [= ->]. left. by exists rest.
Qed.

Lemma getitem_key_ret (v x : pyval) (key : string) :
  Py.getitem v (Py.Key key) = Ret x → ∃ r, v = PDict r ∧ r !! key = Some x.
Proof.
  destruct v as [| b | z | f | s | l | d]; try discriminate.
  simpl. destruct (d !! key) as [y |] eqn:Hy; [| discriminate].
  intros [= ->]. by exists d.
Qed.

Lemma annotate_again (label score : pyval) (a : gmap string pyval) :
  annotate label score (annotate label score a) = annotate label score a.
Proof.
  unfold annotate. apply map_eq. intros k.
  rewrite !lookup_insert. by repeat case_decide.
Qed.

Lemma title_of_annotate (label score : pyval) (a : gmap string pyval) :
  title_of (annotate label score a) = title_of a.
Proof.
  unfold title_of, annotate. by rewrite !lookup_insert_ne.
Qed.

Lemma append_cancel_l (p u v : string) : p +:+ u = p +:+ v → u = v.
Proof.
  induction p as [| c p IH]; simpl; [done |].
  intros [= H]. by apply IH.
Qed.

(** X20. Whatever the directory of the script is, the file that the entry
    point of the Analyzer writes is not the file that it reads: the saved
    headlines are never overwritten by the analysis. *)
Theorem analyzer_output_is_not_its_input (script_dir : string) :
  String.eqb
    (os_path_join script_dir [".."; "data"; "analyzed_headlines.json"])
    (os_path_join script_dir [".."; "data"; "global_headlines.json"]) = false.
Proof.
  apply String.eqb_neq.
  change [".."; "data"; "analyzed_headlines.json"]
    with ([".."; "data"] ++ ["analyzed_headlines.json"])%list.
  change [".."; "data"; "global_headlines.json"]
    with ([".."; "data"] ++ ["global_headlines.json"])%list.
  rewrite <- !os_path_join_app.
  generalize (os_path_join script_dir [".."; "data"]). intros p.
  cbn [os_path_join].
  change (starts_with_slash "analyzed_headlines.json") with false.
  change (starts_with_slash "global_headlines.json") with false.
  cbn iota.
  destruct (String.eqb p "" || ends_with_slash p)%bool; intros H;
    apply append_cancel_l in H; discriminate.
Qed.

Section Analyzer_more.

Variable json_loads : string → outcome pyval.
Variable json_dumps : pyval → outcome string.
Variable json_written : pyval → string.
Variable open_error : gmap string string → gset string → string → exn.
Variable pipeline : string → outcome (pyval → outcome pyval).
Variable py_str : pyval → string.
Variable format_2f : pyval → outcome string.
Variable script_dir : string.

(** The classifier of a run: what the loading of the model returned. *)
Variable sentiment_pipeline : pyval → outcome pyval.
Hypothesis model_loads : pipeline "sentiment-analysis" = Ret sentiment_pipeline.

(** The world once the model is loaded and the count of the input has been
    printed. *)
Definition analysis_started (n : nat) (w : world) : world :=
  say ("Analyzing sentiment for " +:+ pretty n +:+ " articles...")
    (say "Model loaded successfully"
       (say "Loading the sentiment analysis model" w)).

(** A turn that ends without an exception was on a record: one without a
    usable title, which is skipped, or one with a usable title, which is
    returned with the answer of the classifier. *)
Lemma analyze_one_ret (x : pyval) (r : option pyval) :
  analyze_one sentiment_pipeline x = Ret r →
  ∃ a, x = PDict a
       ∧ match r with
         | None => has_title a = false
         | Some y => has_title a = true
                     ∧ ∃ o, y = PDict o ∧ annotated_from sentiment_pipeline a o
         end.
Proof.
  destruct x as [| b | z | f | s | l | a]; try discriminate.
  unfold analyze_one. cbn [Py.get mbind outcome_bind].
  fold (title_of a). fold (has_title a).
  destruct (has_title a) eqn:Ht; cbn [negb].
  - destruct (sentiment_pipeline (title_of a)) as [result | e] eqn:Hc;
      cbn [mbind outcome_bind]; [| discriminate].
    destruct (Py.getitem result (Py.Index 0)) as [first | e] eqn:H0;
      cbn [mbind outcome_bind]; [| discriminate].
    destruct (Py.getitem first (Py.Key "label")) as [label | e] eqn:Hl;
      cbn [mbind outcome_bind]; [| discriminate].
    destruct (Py.getitem first (Py.Key "score")) as [score | e] eqn:Hs;
      cbn [mbind outcome_bind]; [| discriminate].
    cbn [Py.setitem mbind outcome_bind]. intros [= <-].
    apply getitem_key_ret in Hl as (r' & -> & Hl).
    apply getitem_key_ret in Hs as (r'' & [= <-] & Hs).
    apply getitem_zero_ret in H0 as [[rest ->] | [c [=]]].
    exists a. split; [done |]. split; [done |].
    eexists. split; [reflexivity |].
    exists label, score. split; [| reflexivity].
    by exists r', rest.
  - intros [= <-]. by exists a.
Qed.

(** A record with a usable title that the classifier answers is kept and
    annotated. *)
Lemma analyze_one_annotates (a : gmap string pyval) (label score : pyval) :
  has_title a = true →
  classifier_gives sentiment_pipeline (title_of a) label score →
  analyze_one sentiment_pipeline (PDict a) = Ret (Some (PDict (annotate label score a))).
Proof.
  intros Ht (r & rest & Hc & Hl & Hs).
  unfold analyze_one. cbn [Py.get mbind outcome_bind].
  fold (title_of a). fold (has_title a). rewrite Ht. cbn [negb].
  rewrite Hc. simpl. rewrite Hl. simpl. by rewrite Hs.
Qed.

Lemma analyze_one_skips (a : gmap string pyval) :
  has_title a = false → analyze_one sentiment_pipeline (PDict a) = Ret None.
Proof.
  intros Ht. unfold analyze_one. cbn [Py.get mbind outcome_bind].
  fold (title_of a). fold (has_title a). by rewrite Ht.
Qed.

(** When the loop ends without an exception, its input was a list of
    records and what it appended is the records with a usable title, in
    order, each with the answer of the classifier. *)
Lemma analyze_loop_ret (items acc out : list pyval) :
  analyze_loop sentiment_pipeline items acc = Ret out →
  ∃ arts new,
    items = PDict <$> arts
    ∧ out = (acc ++ (PDict <$> new))%list
    ∧ Forall2 (annotated_from sentiment_pipeline) (filter (λ a, has_title a = true) arts) new.
Proof.
  revert acc. induction items as [| x items IH]; intros acc.
  - intros [= <-]. exists [], []. split; [done |]. split; [by rewrite app_nil_r |].
    constructor.
  - rewrite analyze_loop_cons.
    destruct (analyze_one sentiment_pipeline x) as [r | e] eqn:Hone;
      [| discriminate].
    apply analyze_one_ret in Hone as (a & -> & Hr).
    destruct r as [y |].
    + destruct Hr as (Ht & o & -> & Ho). intros Hloop.
      apply IH in Hloop as (arts & new & -> & -> & Hnew).
      exists (a :: arts), (o :: new). split; [done |].
      split; [by rewrite <- app_assoc |].
      rewrite filter_cons_True by done. by constructor.
    + intros Hloop. apply IH in Hloop as (arts & new & -> & -> & Hnew).
      exists (a :: arts), new. split; [done |]. split; [done |].
      rewrite filter_cons_False; [done | congruence].
Qed.

(** The run of [analyzeSentiment] on a file that holds a list. *)
Lemma analyzeSentiment_on_list (path contents : string) (w : world)
    (items : list pyval) :
  files w !! path = Some contents →
  json_loads contents = Ret (PList items) →
  analyzeSentiment json_loads open_error pipeline path w =
    match analyze_loop sentiment_pipeline items [] with
    | Ret out =>
        (Ret (PList out), say "Analysis complete." (analysis_started (length items) w))
    | Raise e => (Raise e, analysis_started (length items) w)
    end.
Proof.
  intros Hfile Hjson. unfold analyzeSentiment. rewrite model_loads.
  unfold_M. simpl. rewrite Hfile, Hjson. simpl.
  by destruct (analyze_loop sentiment_pipeline items []).
Qed.

(** The loop gets to the item [x]: the items before it are analysed
    without an exception. *)
Definition loop_reaches (items : list pyval) (x : pyval) : Prop :=
  ∃ pre post acc,
    items = (pre ++ x :: post)%list
    ∧ analyze_loop sentiment_pipeline pre [] = Ret acc.

(** The analysis ends with the exception of the first turn that raises. *)
Lemma analysis_stops (path contents : string) (w : world) (items : list pyval)
    (x : pyval) (e : exn) :
  files w !! path = Some contents →
  json_loads contents = Ret (PList items) →
  loop_reaches items x →
  analyze_one sentiment_pipeline x = Raise e →
  analyzeSentiment json_loads open_error pipeline path w =
    (Raise e, analysis_started (length items) w).
Proof.
  intros Hfile Hjson (pre & post & acc & Hitems & Hpre) Hone.
  rewrite (analyzeSentiment_on_list path contents w items Hfile Hjson).
  rewrite Hitems at 1. rewrite analyze_loop_app, Hpre.
  cbn [mbind outcome_bind]. by rewrite analyze_loop_cons, Hone.
Qed.

(** X11. A file that exists but does not decode is not handled: the
    exception of the decoder is raised to the caller once the model is
    loaded, and no line about the file is printed. *)
Theorem malformed_json_propagates (path contents : string) (w : world) (e : exn) :
  files w !! path = Some contents →
  json_loads contents = Raise e →
  is_FileNotFoundError e = false →
  analyzeSentiment json_loads open_error pipeline path w =
    (Raise e,
     say "Model loaded successfully" (say "Loading the sentiment analysis model" w)).
Proof.
  intros Hfile Hjson He. unfold analyzeSentiment. rewrite model_loads.
  unfold_M. simpl. rewrite Hfile, Hjson. simpl. by rewrite He.
Qed.

(** X12. An exception of the classifier on the title of a record is not
    caught: the analysis ends with it, nothing is returned for the records
    already analysed and "Analysis complete." is not printed. *)
Theorem classifier_failure_propagates (path contents : string) (w : world)
    (items : list pyval) (a : gmap string pyval) (e : exn) :
  files w !! path = Some contents →
  json_loads contents = Ret (PList items) →
  loop_reaches items (PDict a) →
  has_title a = true →
  sentiment_pipeline (title_of a) = Raise e →
  analyzeSentiment json_loads open_error pipeline path w =
    (Raise e, analysis_started (length items) w).
Proof.
  intros Hfile Hjson Hreach Ht Hc.
  apply (analysis_stops path contents w items (PDict a) e Hfile Hjson Hreach).
  unfold analyze_one. cbn [Py.get mbind outcome_bind].
  fold (title_of a). fold (has_title a). rewrite Ht. cbn [negb].
  by rewrite Hc.
Qed.

(** X13. An item of the list that is not an object has no [get]: when the
    loop gets to it, the analysis ends with [AttributeError]. *)
Theorem non_record_item_raises_AttributeError (path contents : string) (w : world)
    (items : list pyval) (x : pyval) :
  files w !! path = Some contents →
  json_loads contents = Ret (PList items) →
  loop_reaches items x →
  (∀ d, x ≠ PDict d) →
  analyzeSentiment json_loads open_error pipeline path w =
    (Raise (mk_exn AttributeError
              ("'" +:+ Py.type_name x +:+ "' object has no attribute 'get'")),
     analysis_started (length items) w).
Proof.
  intros Hfile Hjson Hreach Hx.
  apply (analysis_stops path contents w items x _ Hfile Hjson Hreach).
  destruct x as [| b | z | f | s | l | d]; try reflexivity.
  by destruct (Hx d).
Qed.

(** X14. When the classifier answers the title of a record with an empty
    sequence, [result[0]] fails and the analysis ends with [IndexError]. *)
Theorem empty_answer_raises_IndexError (path contents : string) (w : world)
    (items : list pyval) (a : gmap string pyval) :
  files w !! path = Some contents →
  json_loads contents = Ret (PList items) →
  loop_reaches items (PDict a) →
  has_title a = true →
  sentiment_pipeline (title_of a) = Ret (PList []) →
  analyzeSentiment json_loads open_error pipeline path w =
    (Raise (mk_exn IndexError "list index out of range"),
     analysis_started (length items) w).
Proof.
  intros Hfile Hjson Hreach Ht Hc.
  apply (analysis_stops path contents w items (PDict a) _ Hfile Hjson Hreach).
  unfold analyze_one. cbn [Py.get mbind outcome_bind].
  fold (title_of a). fold (has_title a). rewrite Ht. cbn [negb].
  by rewrite Hc.
Qed.

(** X15. When the first element of the answer lacks [label], or has it and
    lacks [score], the analysis ends with a [KeyError] that names the
    missing key; the label is looked up first. *)
Theorem answer_without_field_raises_KeyError (path contents : string) (w : world)
    (items : list pyval) (a r : gmap string pyval) (rest : list pyval)
    (missing : string) :
  files w !! path = Some contents →
  json_loads contents = Ret (PList items) →
  loop_reaches items (PDict a) →
  has_title a = true →
  sentiment_pipeline (title_of a) = Ret (PList (PDict r :: rest)) →
  (missing = "label" ∧ r !! "label" = None)
  ∨ (missing = "score" ∧ is_Some (r !! "label") ∧ r !! "score" = None) →
  analyzeSentiment json_loads open_error pipeline path w =
    (Raise (mk_exn KeyError ("'" +:+ missing +:+ "'")),
     analysis_started (length items) w).
Proof.
  intros Hfile Hjson Hreach Ht Hc Hmissing.
  apply (analysis_stops path contents w items (PDict a) _ Hfile Hjson Hreach).
  unfold analyze_one. cbn [Py.get mbind outcome_bind].
  fold (title_of a). fold (has_title a). rewrite Ht. cbn [negb].
  rewrite Hc. simpl.
  destruct Hmissing as [[-> Hl] | (-> & [label Hl] & Hs)].
  - by rewrite Hl.
  - rewrite Hl. simpl. by rewrite Hs.
Qed.

Lemma analyze_loop_untitled (arts : list (gmap string pyval)) (acc : list pyval) :
  Forall (λ a, has_title a = false) arts →
  analyze_loop sentiment_pipeline (PDict <$> arts) acc = Ret acc.
Proof.
  induction 1 as [| a arts Ha _ IH]; [reflexivity |].
  rewrite fmap_cons, analyze_loop_cons. by rewrite analyze_one_skips.
Qed.

(** X16. When no record of the input has a usable title, the classifier is
    never consulted: [analyzeSentiment] returns the empty list, and for the
    empty list the saving step of the entry point writes and prints
    nothing. *)
Theorem untitled_input_gives_nothing_to_save (path contents : string) (w : world)
    (arts : list (gmap string pyval)) :
  files w !! path = Some contents →
  json_loads contents = Ret (PList (PDict <$> arts)) →
  Forall (λ a, has_title a = false) arts →
  analyzeSentiment json_loads open_error pipeline path w =
    (Ret (PList []), say "Analysis complete." (analysis_started (length arts) w))
  ∧ ∀ w', save_and_report json_dumps json_written py_str format_2f script_dir (PList []) w'
          = (Ret (), w').
Proof.
  intros Hfile Hjson Harts. split; [| done].
  rewrite (analyzeSentiment_on_list path contents w _ Hfile Hjson).
  rewrite analyze_loop_untitled by done. by rewrite length_fmap.
Qed.

(** X17. When the file holds an object that is not empty instead of a
    list, as the body of an API response is, the loop visits its keys,
    which are strings: the analysis ends with [AttributeError]. *)
Theorem object_input_raises_AttributeError (path contents : string) (w : world)
    (d : gmap string pyval) :
  files w !! path = Some contents →
  json_loads contents = Ret (PDict d) →
  d ≠ ∅ →
  analyzeSentiment json_loads open_error pipeline path w =
    (Raise (mk_exn AttributeError "'str' object has no attribute 'get'"),
     analysis_started (size d) w).
Proof.
  intros Hfile Hjson Hd. unfold analyzeSentiment. rewrite model_loads.
  unfold_M. simpl. rewrite Hfile, Hjson. simpl.
  destruct (map_to_list d) as [| [k v] l] eqn:Hlist.
  - by apply map_to_list_empty_iff in Hlist.
  - reflexivity.
Qed.

(** The lines printed for a record of the sample. *)
Definition sample_of (d : gmap string pyval) (lines : list string) : Prop :=
  ∃ title sentiment score text,
    d !! "title" = Some title
    ∧ d !! "sentiment" = Some sentiment
    ∧ d !! "sentiment_score" = Some score
    ∧ format_2f score = Ret text
    ∧ lines = ["Headline: " +:+ py_str title;
               "Sentiment: " +:+ py_str sentiment +:+ " (Score: " +:+ text
                 +:+ ")" +:+ nl].

Definition says (lines : list string) (w : world) : world :=
  mk_world (files w) (dirs w) (console w ++ lines) (sent w).

Lemma print_sample_lines (d : gmap string pyval) (lines : list string) (w : world) :
  sample_of d lines →
  print_sample py_str format_2f (PDict d) w = (Ret (), says lines w).
Proof.
  intros (title & sentiment & score & text & Ht & Hs & Hc & Hf & ->).
  unfold print_sample. unfold_M. simpl.
  rewrite Ht, Hs, Hc. simpl. rewrite Hf. unfold says. simpl.
  by rewrite <- app_assoc.
Qed.

Lemma for_each_sample_lines (recs : list (gmap string pyval))
    (liness : list (list string)) (w : world) :
  Forall2 sample_of recs liness →
  for_each (PDict <$> recs) (print_sample py_str format_2f) w
    = (Ret (), says (concat liness) w).
Proof.
  intros Hrecs. revert w.
  induction Hrecs as [| d lines recs liness Hd _ IH]; intros w.
  - unfold says. simpl. rewrite app_nil_r. by destruct w.
  - rewrite fmap_cons. cbn [for_each]. unfold mbind, M_bind at 1.
    rewrite (print_sample_lines d lines w Hd), IH.
    unfold says. simpl. by rewrite <- app_assoc.
Qed.

(** X18. For a list of records that is not empty and that the encoder
    accepts, the saving step leaves the encoded text in the analyzed file
    and prints the two lines of at most five records, the first ones: the
    records after the fifth are not looked at, and may lack the fields. *)
Theorem report_prints_first_five (recs : list (gmap string pyval))
    (liness : list (list string)) (text : string) (w : world) :
  recs ≠ [] →
  json_dumps (PList (PDict <$> recs)) = Ret text →
  Forall2 sample_of (take 5 recs) liness →
  let output_file :=
    os_path_join script_dir [".."; "data"; "analyzed_headlines.json"] in
  save_and_report json_dumps json_written py_str format_2f script_dir (PList (PDict <$> recs)) w =
    (Ret (),
     says (["Successfully saved analyzed data to " +:+ output_file;
            nl +:+ "--- Sample of Analyzed Headlines ---"] ++ concat liness)
       (mk_world (<[output_file := text]> (files w)) (dirs w) (console w) (sent w)))
  ∧ length liness = Nat.min 5 (length recs).
Proof.
  intros Hrecs Hdump Hsample output_file. split.
  - unfold save_and_report.
    assert (Py.truthy (PList (PDict <$> recs)) = true) as ->
      by (by destruct recs).
    fold output_file. unfold_M. cbn [files dirs console sent].
    rewrite Hdump. cbn [Py.slice_to Py.iter]. rewrite <- fmap_take.
    rewrite (for_each_sample_lines _ _ _ Hsample).
    unfold says. cbn [files dirs console sent].
    by rewrite insert_insert_eq, <- !app_assoc.
  - rewrite <- (Forall2_length _ _ _ Hsample). apply length_take.
Qed.

Lemma analyze_loop_on_annotated (out : list (gmap string pyval)) (acc : list pyval) :
  Forall (λ o, ∃ a, has_title a = true ∧ annotated_from sentiment_pipeline a o) out →
  analyze_loop sentiment_pipeline (PDict <$> out) acc
    = Ret (acc ++ (PDict <$> out))%list.
Proof.
  intros Hout. revert acc.
  induction Hout as [| o out (a & Ht & label & score & Hg & ->) _ IH]; intros acc.
  - by rewrite app_nil_r.
  - rewrite fmap_cons, analyze_loop_cons.
    rewrite (analyze_one_annotates _ label score).
    + rewrite annotate_again, IH. by rewrite <- app_assoc.
    + by rewrite has_title_annotate.
    + by rewrite title_of_annotate.
Qed.

(** X19. Analysing records that are already the outcome of an analysis
    with the same classifier returns them unchanged: every one is kept, and
    its two fields are set again to the values they have. *)
Theorem reanalysis_changes_nothing (path contents : string) (w : world)
    (out : list (gmap string pyval)) :
  files w !! path = Some contents →
  json_loads contents = Ret (PList (PDict <$> out)) →
  Forall (λ o, ∃ a, has_title a = true ∧ annotated_from sentiment_pipeline a o) out →
  (analyzeSentiment json_loads open_error pipeline path w).1 = Ret (PList (PDict <$> out)).
Proof.
  intros Hfile Hjson Hout.
  rewrite (analyzeSentiment_on_list path contents w _ Hfile Hjson).
  by rewrite analyze_loop_on_annotated.
Qed.

End Analyzer_more.

(** X9. Whenever [analyzeSentiment] returns a value for a file that holds a
    list, whatever the classifier does, the model had loaded, every item
    of the list was a record and the value is the list of the records with
    a usable title, in the order of the input, each with the label and the
    score that the classifier gave for its title. *)
Theorem analysis_result_characterised (json_loads : string → outcome pyval)
    (open_error : gmap string string → gset string → string → exn)
    (pipeline : string → outcome (pyval → outcome pyval))
    (path contents : string) (w : world) (items : list pyval) (v : pyval) :
  files w !! path = Some contents →
  json_loads contents = Ret (PList items) →
  (analyzeSentiment json_loads open_error pipeline path w).1 = Ret v →
  ∃ sentiment_pipeline arts out,
    pipeline "sentiment-analysis" = Ret sentiment_pipeline
    ∧ items = PDict <$> arts
    ∧ v = PList (PDict <$> out)
    ∧ Forall2 (annotated_from sentiment_pipeline)
        (filter (λ a, has_title a = true) arts) out.
Proof.
  intros Hfile Hjson.
  destruct (pipeline "sentiment-analysis") as [clf | e] eqn:Hload.
  - rewrite (analyzeSentiment_on_list json_loads open_error pipeline clf Hload
               path contents w items Hfile Hjson).
    destruct (analyze_loop clf items []) as [out | e] eqn:Hloop; [| discriminate].
    intros [= <-].
    apply analyze_loop_ret in Hloop as (arts & new & -> & -> & Hnew).
    by exists clf, arts, new.
  - unfold analyzeSentiment. rewrite Hload. discriminate.
Qed.

(** X10. However it ends, [analyzeSentiment] changes no file, creates no
    directory and sends no request; it only adds lines to the console.
    The first line is the one that announces the loading of the model, and
    when the loading returns the second one is "Model loaded successfully":
    the model is loaded before the file is opened. *)
Theorem analysis_never_writes (json_loads : string → outcome pyval)
    (open_error : gmap string string → gset string → string → exn)
    (pipeline : string → outcome (pyval → outcome pyval))
    (path : string) (w : world) :
  let w' := (analyzeSentiment json_loads open_error pipeline path w).2 in
  files w' = files w
  ∧ dirs w' = dirs w
  ∧ sent w' = sent w
  ∧ ∃ lines,
      console w' = (console w ++ "Loading the sentiment analysis model" :: lines)%list
      ∧ ∀ sentiment_pipeline,
          pipeline "sentiment-analysis" = Ret sentiment_pipeline →
          ∃ lines', lines = "Model loaded successfully" :: lines'.
Proof.
  assert (Hsplit : ∀ P Q R S : Prop, P → Q → R → S → P ∧ Q ∧ R ∧ S) by (by intros).
  assert (Hlines : ∀ (l : list string) (P : Prop), P →
            ∃ lines, ("Loading the sentiment analysis model"
                        :: "Model loaded successfully" :: l
                      = "Loading the sentiment analysis model" :: lines)
                     ∧ (P → ∃ lines', lines = "Model loaded successfully" :: lines')).
  { intros l P _. eexists. split; [reflexivity |]. intros _. by eexists. }
  unfold analyzeSentiment.
  destruct (pipeline "sentiment-analysis") as [clf | e] eqn:Hload; unfold_M; simpl.
  - assert (Hgoal : ∀ (c : list string) l,
              c = (console w ++ "Loading the sentiment analysis model"
                     :: "Model loaded successfully" :: l)%list →
              ∃ lines,
                c = (console w ++ "Loading the sentiment analysis model" :: lines)%list
                ∧ ∀ sentiment_pipeline : pyval → outcome pyval,
                    Ret clf = Ret sentiment_pipeline →
                    ∃ lines', lines = "Model loaded successfully" :: lines').
    { intros c l ->. eexists. split; [reflexivity |]. intros _ _. by eexists. }
    destruct (files w !! path) as [contents |]; simpl.
    + destruct (json_loads contents) as [articles | e]; simpl.
      * destruct (Py.len articles) as [n | e]; simpl;
          [destruct (Py.iter articles) as [items | e]; simpl;
             [destruct (analyze_loop _ items []) as [out | e]; simpl |] |];
          apply Hsplit; try done; eapply Hgoal; by rewrite <- ?app_assoc.
      * destruct (is_FileNotFoundError e); simpl;
          apply Hsplit; try done; eapply Hgoal; by rewrite <- ?app_assoc.
    + destruct (is_FileNotFoundError _); simpl;
        apply Hsplit; try done; eapply Hgoal; by rewrite <- ?app_assoc.
  - apply Hsplit; try done. exists []. split; [done |]. intros clf [=].
Qed.

(** ** The further properties on sample inputs *)

Lemma foreign_exception_propagates_witness :
  get_headlines_by_category Case.breaks Sample.with_key "general" "en"
      Sample.empty_world =
    (Raise (mk_exn ValueError "check_hostname requires server_hostname"),
     after_request Sample.with_key "general" "en" Sample.empty_world).
Proof.
  apply (foreign_exception_propagates Case.breaks Sample.with_key "general" "en"
           Sample.empty_world).
  - reflexivity.
  - reflexivity.
  - left. reflexivity.
Defined.

Lemma undecodable_body_gives_none_witness :
  get_headlines_by_category (Case.undecodable Case.requests_decode_error)
      Sample.with_key "general" "en" Sample.empty_world =
    (Ret PNone,
     say "An error occurred: Expecting value: line 1 column 1 (char 0)"
       (after_request Sample.with_key "general" "en" Sample.empty_world)).
Proof.
  apply (undecodable_body_gives_none (Case.undecodable Case.requests_decode_error)
           Sample.with_key "general" "en" Sample.empty_world
           (mk_response 200 "OK" Sample.api_url (Raise Case.requests_decode_error))
           Case.requests_decode_error).
  - reflexivity.
  - reflexivity.
  - simpl. lia.
  - reflexivity.
  - reflexivity.
Defined.

Lemma non_object_body_raises_AttributeError_witness :
  get_headlines_by_category
      (Sample.answers 200 "OK" (PList Sample.three_articles))
      Sample.with_key "general" "en" Sample.empty_world =
    (Raise (mk_exn AttributeError "'list' object has no attribute 'get'"),
     after_request Sample.with_key "general" "en" Sample.empty_world).
Proof.
  apply (non_object_body_raises_AttributeError
           (Sample.answers 200 "OK" (PList Sample.three_articles))
           Sample.with_key "general" "en" Sample.empty_world
           (mk_response 200 "OK" Sample.api_url (Ret (PList Sample.three_articles)))
           (PList Sample.three_articles)).
  - reflexivity.
  - reflexivity.
  - simpl. lia.
  - reflexivity.
  - discriminate.
Defined.

Lemma articles_value_returned_unchecked_witness :
  get_headlines_by_category (Sample.answers 200 "OK" (Sample.body PNone))
      Sample.with_key "general" "en" Sample.empty_world =
    (Ret PNone, after_request Sample.with_key "general" "en" Sample.empty_world).
Proof.
  apply (articles_value_returned_unchecked
           (Sample.answers 200 "OK" (Sample.body PNone))
           Sample.with_key "general" "en" Sample.empty_world
           (mk_response 200 "OK" Sample.api_url (Ret (Sample.body PNone)))
           {[ "articles" := PNone ]} PNone).
  - reflexivity.
  - reflexivity.
  - simpl. lia.
  - reflexivity.
  - reflexivity.
Defined.


Lemma fetcher_without_key_ends_normally_witness :
  fetchNews_main Sample.encode_nothing Sample.nothing_written Sample.times_out Case.scripts
      Sample.blank_key Case.used_world =
    (Ret (),
     say (nl +:+ "Fetching complete!")
       (say "Could not fetch or save articles."
          (say "Error: NEWS_API_KEY not found. Please set it in your .env file."
             Case.used_world))).
Proof.
  apply (fetcher_without_key_ends_normally Sample.encode_nothing
           Sample.nothing_written Sample.times_out
           Case.scripts Sample.blank_key Case.used_world).
  right. reflexivity.
Defined.

Lemma fetcher_touches_one_file_witness :
  files (fetchNews_main (Case.encode_as "[3 articles]") Sample.nothing_written
           (Sample.answers 200 "OK" (Sample.body (PList Sample.three_articles)))
           Case.scripts Sample.with_key Case.used_world).2 !! "notes.txt"
    = files Case.used_world !! "notes.txt".
Proof.
  apply (fetcher_touches_one_file (Case.encode_as "[3 articles]")
           Sample.nothing_written
           (Sample.answers 200 "OK" (Sample.body (PList Sample.three_articles)))
           Case.scripts Sample.with_key Case.used_world "notes.txt").
  vm_compute. discriminate.
Defined.

Lemma loop_reaches_b (o : outcome pyval) :
  loop_reaches (Case.on_b o) Case.items_ab (PDict (Sample.headline "b")).
Proof.
  exists [PDict (Sample.headline "a"); PDict {[ "source" := PStr "x" ]}],
         [PDict (Sample.headline "c")],
         [PDict (Case.analyzed "a")].
  split; reflexivity.
Qed.

Lemma analysis_result_characterised_witness :
  ∃ sentiment_pipeline arts out,
    Sample.load_positive "sentiment-analysis" = Ret sentiment_pipeline
    ∧ PDict <$> Sample.scenario = PDict <$> arts
    ∧ PList [PDict (<["sentiment_score" := PFloat 0.75%float]>
                      (<["sentiment" := PStr "POSITIVE"]>
                         {[ "title" := PStr "Markets rally on strong earnings" ]}))]
        = PList (PDict <$> out)
    ∧ Forall2 (annotated_from sentiment_pipeline)
        (filter (λ a, has_title a = true) arts) out.
Proof.
  apply (analysis_result_characterised Sample.decode_scenario
           Sample.posix_open_error Sample.load_positive
           Sample.input_path "scenario" Sample.scenario_world).
  - reflexivity.
  - reflexivity.
  - vm_compute. reflexivity.
Defined.

Lemma malformed_json_propagates_witness :
  analyzeSentiment Case.reject Sample.posix_open_error Sample.load_positive
      Sample.input_path Case.input_world =
    (Raise Case.json_decode_error,
     say "Model loaded successfully"
       (say "Loading the sentiment analysis model" Case.input_world)).
Proof.
  apply (malformed_json_propagates Case.reject Sample.posix_open_error
           Sample.load_positive Sample.positive eq_refl
           Sample.input_path "text of the file" Case.input_world
           Case.json_decode_error).
  - reflexivity.
  - reflexivity.
  - reflexivity.
Defined.

Lemma classifier_failure_propagates_witness :
  analyzeSentiment (Case.decode_to (PList Case.items_ab)) Sample.posix_open_error
      (Case.loads (Case.on_b (Raise Case.out_of_memory)))
      Sample.input_path Case.input_world =
    (Raise Case.out_of_memory, analysis_started 4 Case.input_world).
Proof.
  apply (classifier_failure_propagates (Case.decode_to (PList Case.items_ab))
           Sample.posix_open_error
           (Case.loads (Case.on_b (Raise Case.out_of_memory)))
           (Case.on_b (Raise Case.out_of_memory)) eq_refl
           Sample.input_path "text of the file" Case.input_world Case.items_ab
           (Sample.headline "b") Case.out_of_memory).
  - reflexivity.
  - reflexivity.
  - apply loop_reaches_b.
  - reflexivity.
  - reflexivity.
Defined.

Lemma non_record_item_raises_AttributeError_witness :
  analyzeSentiment (Case.decode_to (PList Case.items_with_string))
      Sample.posix_open_error Sample.load_positive
      Sample.input_path Case.input_world =
    (Raise (mk_exn AttributeError "'str' object has no attribute 'get'"),
     analysis_started 4 Case.input_world).
Proof.
  apply (non_record_item_raises_AttributeError
           (Case.decode_to (PList Case.items_with_string))
           Sample.posix_open_error Sample.load_positive Sample.positive eq_refl
           Sample.input_path "text of the file" Case.input_world
           Case.items_with_string (PStr "b")).
  - reflexivity.
  - reflexivity.
  - exists [PDict (Sample.headline "a"); PDict {[ "source" := PStr "x" ]}],
           [PDict (Sample.headline "c")],
           [PDict (Case.analyzed "a")].
    split; reflexivity.
  - discriminate.
Defined.

Lemma empty_answer_raises_IndexError_witness :
  analyzeSentiment (Case.decode_to (PList Case.items_ab)) Sample.posix_open_error
      (Case.loads (Case.on_b (Ret (PList []))))
      Sample.input_path Case.input_world =
    (Raise (mk_exn IndexError "list index out of range"),
     analysis_started 4 Case.input_world).
Proof.
  apply (empty_answer_raises_IndexError (Case.decode_to (PList Case.items_ab))
           Sample.posix_open_error
           (Case.loads (Case.on_b (Ret (PList []))))
           (Case.on_b (Ret (PList []))) eq_refl
           Sample.input_path "text of the file" Case.input_world Case.items_ab
           (Sample.headline "b")).
  - reflexivity.
  - reflexivity.
  - apply loop_reaches_b.
  - reflexivity.
  - reflexivity.
Defined.

Lemma answer_without_field_raises_KeyError_witness :
  analyzeSentiment (Case.decode_to (PList Case.items_ab)) Sample.posix_open_error
      (Case.loads (Case.on_b (Ret (PList [PDict {[ "label" := PStr "NEGATIVE" ]}]))))
      Sample.input_path Case.input_world =
    (Raise (mk_exn KeyError "'score'"), analysis_started 4 Case.input_world).
Proof.
  apply (answer_without_field_raises_KeyError
           (Case.decode_to (PList Case.items_ab)) Sample.posix_open_error
           (Case.loads (Case.on_b (Ret (PList [PDict {[ "label" := PStr "NEGATIVE" ]}]))))
           (Case.on_b (Ret (PList [PDict {[ "label" := PStr "NEGATIVE" ]}]))) eq_refl
           Sample.input_path "text of the file" Case.input_world Case.items_ab
           (Sample.headline "b") {[ "label" := PStr "NEGATIVE" ]} [] "score").
  - reflexivity.
  - reflexivity.
  - apply loop_reaches_b.
  - reflexivity.
  - reflexivity.
  - right. split; [reflexivity |]. split; [by eexists | reflexivity].
Defined.

Lemma untitled_input_gives_nothing_to_save_witness :
  analyzeSentiment
      (Case.decode_to
         (PList (PDict <$> [ {[ "source" := PStr "x" ]}; {[ "title" := PStr "" ]} ])))
      Sample.posix_open_error
      (Case.loads (Case.on_b (Raise Case.out_of_memory)))
      Sample.input_path Case.input_world =
    (Ret (PList []), say "Analysis complete." (analysis_started 2 Case.input_world))
  ∧ ∀ w', save_and_report Sample.encode_nothing Sample.nothing_written Case.show
            Case.format_score Case.scripts (PList []) w' = (Ret (), w').
Proof.
  apply (untitled_input_gives_nothing_to_save
           (Case.decode_to
              (PList (PDict <$> [ {[ "source" := PStr "x" ]}; {[ "title" := PStr "" ]} ])))
           Sample.encode_nothing Sample.nothing_written Sample.posix_open_error
           (Case.loads (Case.on_b (Raise Case.out_of_memory)))
           Case.show Case.format_score Case.scripts
           (Case.on_b (Raise Case.out_of_memory)) eq_refl
           Sample.input_path "text of the file" Case.input_world
           [ {[ "source" := PStr "x" ]}; {[ "title" := PStr "" ]} ]).
  - reflexivity.
  - reflexivity.
  - repeat constructor.
Defined.

Lemma object_input_raises_AttributeError_witness :
  analyzeSentiment (Case.decode_to (Sample.body (PList Sample.three_articles)))
      Sample.posix_open_error Sample.load_positive
      Sample.input_path Case.input_world =
    (Raise (mk_exn AttributeError "'str' object has no attribute 'get'"),
     analysis_started (size (C := gmap string pyval)
                         {[ "articles" := PList Sample.three_articles ]})
       Case.input_world).
Proof.
  apply (object_input_raises_AttributeError
           (Case.decode_to (Sample.body (PList Sample.three_articles)))
           Sample.posix_open_error Sample.load_positive Sample.positive eq_refl
           Sample.input_path "text of the file"
           Case.input_world {[ "articles" := PList Sample.three_articles ]}).
  - reflexivity.
  - reflexivity.
  - intros H. apply (f_equal (λ d : gmap string pyval, size d)) in H.
    vm_compute in H. discriminate.
Defined.

Lemma sample_of_analyzed (title : string) :
  sample_of Case.show Case.format_score (Case.analyzed title) (Case.sample_lines title).
Proof.
  exists (PStr title), (PStr "POSITIVE"), (PFloat 0.75%float), "0.75".
  repeat split; reflexivity.
Qed.

Lemma report_prints_first_five_witness :
  let recs :=
    [Case.analyzed "a"; Case.analyzed "b"; Case.analyzed "c"; Case.analyzed "d";
     Case.analyzed "e"; {[ "source" := PStr "x" ]}] in
  let liness := Case.sample_lines <$> ["a"; "b"; "c"; "d"; "e"] in
  save_and_report (Case.encode_as "[6 records]") Sample.nothing_written Case.show
      Case.format_score Case.scripts (PList (PDict <$> recs)) Case.input_world =
    (Ret (),
     says (["Successfully saved analyzed data to " +:+ Case.analyzed_file;
            nl +:+ "--- Sample of Analyzed Headlines ---"] ++ concat liness)
       (mk_world (<[Case.analyzed_file := "[6 records]"]> (files Case.input_world))
          (dirs Case.input_world) (console Case.input_world)
          (sent Case.input_world)))
  ∧ length liness = Nat.min 5 (length recs).
Proof.
  apply (report_prints_first_five (Case.encode_as "[6 records]")
           Sample.nothing_written Case.show Case.format_score Case.scripts
           [Case.analyzed "a"; Case.analyzed "b"; Case.analyzed "c";
            Case.analyzed "d"; Case.analyzed "e"; {[ "source" := PStr "x" ]}]
           (Case.sample_lines <$> ["a"; "b"; "c"; "d"; "e"])
           "[6 records]" Case.input_world).
  - discriminate.
  - reflexivity.
  - repeat (constructor; [apply sample_of_analyzed |]). constructor.
Defined.

Lemma reanalysis_changes_nothing_witness :
  (analyzeSentiment
     (Case.decode_to (PList (PDict <$> [Case.analyzed "a"; Case.analyzed "c"])))
     Sample.posix_open_error Sample.load_positive
     Sample.input_path Case.input_world).1 =
    Ret (PList (PDict <$> [Case.analyzed "a"; Case.analyzed "c"])).
Proof.
  apply (reanalysis_changes_nothing
           (Case.decode_to (PList (PDict <$> [Case.analyzed "a"; Case.analyzed "c"])))
           Sample.posix_open_error Sample.load_positive Sample.positive eq_refl
           Sample.input_path "text of the file"
           Case.input_world [Case.analyzed "a"; Case.analyzed "c"]).
  - reflexivity.
  - reflexivity.
  - repeat constructor.
    + exists (Sample.headline "a"). split; [reflexivity |].
      exists (PStr "POSITIVE"), (PFloat 0.75%float).
      split; [apply sample_classifier_answers | reflexivity].
    + exists (Sample.headline "c"). split; [reflexivity |].
      exists (PStr "POSITIVE"), (PFloat 0.75%float).
      split; [apply sample_classifier_answers | reflexivity].
Defined.
